(** * Competitor Intelligence dashboard: the sheet and drive glue of [app.py]

    A shallow embedding of [src/app.py].  The program is a Streamlit
    script: every user interaction re-runs [main] from the top, the
    script renders elements one after the other, and everything it
    remembers lives in two external services (a spreadsheet reached
    through gspread, a folder reached through the Drive API).

    The script is modelled as a state-and-exception computation over a
    [world]: the spreadsheets the service account can open, the answers
    of the Drive service, the log of mutating requests, the elements
    rendered so far in the run, and the two [st.cache_resource] slots.

    What belongs to the external libraries is modelled from the
    documented behaviour of the calls the script makes: gspread in the
    module [Gspread], pandas in the module [Pandas], the Streamlit calls
    as rendered [element]s.  What belongs to [app.py] follows the source
    line by line. *)

From Stdlib Require Import Ascii.
From stdpp Require Import base option list strings gmap pretty.

(** ** Python values and dictionaries *)

(** The values the script meets in records: text, booleans, whole
    numbers and floats.  A float is finite ([m] times two to the [e]),
    an infinity, or [VNaN], the float that is not a number, which pandas
    uses for a missing entry. *)
Inductive value :=
| VStr (s : string)
| VBool (b : bool)
| VNum (z : Z)
| VFloat (m e : Z)
| VInf (negative : bool)
| VNaN.

Global Instance value_eq_dec : EqDecision value.
Proof. solve_decision. Defined.

(** A Python [dict] with text keys: insertion ordered, so an association
    list; a well-formed one has no repeated key. *)
Abbreviation dict := (list (string * value)) (only parsing).

Definition keys (d : dict) : list string := d.*1.

Fixpoint dict_get (d : dict) (k : string) : option value :=
  match d with
  | [] => None
  | (k', v) :: d' => if decide (k' = k) then Some v else dict_get d' k
  end.

(** [d.get(k, dflt)] *)
Definition get (d : dict) (k : string) (dflt : value) : value :=
  default dflt (dict_get d k).

(** [d[k] = v]: an existing key keeps its place. *)
Fixpoint dict_set (d : dict) (k : string) (v : value) : dict :=
  match d with
  | [] => [(k, v)]
  | (k', v') :: d' =>
      if decide (k' = k) then (k', v) :: d' else (k', v') :: dict_set d' k v
  end.

(** [dict(zip(ks, vs))] *)
Definition dict_zip (ks : list string) (vs : list value) : dict :=
  foldl (λ d kv, dict_set d kv.1 kv.2) [] (zip ks vs).

(** [del d[k]] when present, used to state that a field is ignored. *)
Fixpoint dict_del (d : dict) (k : string) : dict :=
  match d with
  | [] => []
  | (k', v) :: d' =>
      if decide (k' = k) then dict_del d' k else (k', v) :: dict_del d' k
  end.

(** ** The spreadsheet service *)

(** A worksheet: its title, the grid size it was created with, and the
    rows of cells that hold something.  A cell holds the value that was
    put in it; the blank cell is the empty text.  What a read gives for
    a cell is the text the cell shows, see [Gspread.records]. *)
Record worksheet := Worksheet {
  title : string;
  row_count : nat;
  col_count : nat;
  cells : list (list value)
}.

Abbreviation spreadsheet := (list worksheet) (only parsing).

Definition blank : value := VStr "".

(** Mutating requests the service has accepted. *)
Inductive request :=
| AddSheet (key : string) (name : string) (rows cols : nat)
| ValuesUpdate (key : string) (name : string) (range : string)
               (data : list (list value)).

(** A file entry of the Drive listing, with the fields the script asks
    for; the link may be missing from an entry. *)
Record file := File {
  file_id : string;
  file_name : string;
  file_mimeType : string;
  file_webViewLink : option string
}.

Inductive exn :=
| SpreadsheetNotFound (key : string)
| WorksheetNotFound (name : string)
| APIError (msg : string)
| HttpError (msg : string)
| CredentialsError
| InvalidJSONError
| GSpreadException.

(** The answer to [files().list(q=...).execute()]: a failure, or a
    response whose ["files"] entry may be absent. *)
Inductive response :=
| Failure (e : exn)
| Response (files : option (list file)).

(** The rendered elements. *)
Record DataFrame := Frame {
  columns : list string;
  values : list (list value)
}.

Inductive element :=
| sidebar_title (s : string)
| sidebar_caption (s : string)
| sidebar_write (s : string)
| sidebar_radio (label : string) (options : list string)
| sidebar_markdown (s : string)
| header (s : string)
| subheader (s : string)
| dataframe (df : DataFrame)
| write (s : string)
| markdown (s : string)
| info (s : string)
| success (s : string)
| form (key : string) (inputs : list string) (submit : string).

(** ** The world the script runs in *)

(** Two conversions belong to the services and are not fixed here: the
    text the spreadsheet service shows for a stored number ([formats]),
    and the value gspread's [numericise] gives for a text that is not
    blank ([numericise]: a number for a text that reads as one, the text
    itself otherwise). *)
Record world := World {
  books : gmap string spreadsheet;
  drive : string → response;
  writes : list request;
  screen : list element;
  gspread_client : option string;
  drive_service : option string;
  formats : value → string;
  numericise : string → value
}.

Definition set_books (f : gmap string spreadsheet → gmap string spreadsheet)
    (w : world) : world :=
  World (f (books w)) (drive w) (writes w) (screen w)
        (gspread_client w) (drive_service w) (formats w) (numericise w).

Definition log (r : request) (w : world) : world :=
  World (books w) (drive w) (writes w ++ [r]) (screen w)
        (gspread_client w) (drive_service w) (formats w) (numericise w).

Definition show (e : element) (w : world) : world :=
  World (books w) (drive w) (writes w) (screen w ++ [e])
        (gspread_client w) (drive_service w) (formats w) (numericise w).

Definition cache_gspread (c : string) (w : world) : world :=
  World (books w) (drive w) (writes w) (screen w) (Some c) (drive_service w)
        (formats w) (numericise w).

Definition cache_drive (c : string) (w : world) : world :=
  World (books w) (drive w) (writes w) (screen w) (gspread_client w) (Some c)
        (formats w) (numericise w).

(** ** Script computations *)

(** A call returns, raises, or stops the run ([st.stop()], which no
    [except Exception] catches).  The world reached is kept in each
    case: what was rendered or written before a failure stays. *)
Inductive outcome (A : Type) :=
| Return (a : A)
| Raise (e : exn)
| Stopped.
Arguments Return {A} a.
Arguments Raise {A} e.
Arguments Stopped {A}.

Definition script (A : Type) : Type := world → outcome A * world.

Definition ret {A} (a : A) : script A := λ w, (Return a, w).
Definition raise {A} (e : exn) : script A := λ w, (Raise e, w).
Definition stop {A} : script A := λ w, (Stopped, w).

Definition bind {A B} (c : script A) (k : A → script B) : script B :=
  λ w, match c w with
       | (Return a, w') => k a w'
       | (Raise e, w') => (Raise e, w')
       | (Stopped, w') => (Stopped, w')
       end.

Notation "'let*' x := c 'in' k" := (bind c (λ x, k))
  (at level 10, x binder, c at level 100, k at level 200).
Notation "c ;; k" := (bind c (λ _, k))
  (at level 100, k at level 200, right associativity).

(** [try: c except Exception: h] *)
Definition try_except {A} (c : script A) (h : script A) : script A :=
  λ w, match c w with
       | (Raise _, w') => h w'
       | r => r
       end.

(** [for x in xs: body x] *)
Fixpoint for_each {A} (xs : list A) (body : A → script unit) : script unit :=
  match xs with
  | [] => ret tt
  | x :: xs' => body x ;; for_each xs' body
  end.

Definition render (e : element) : script unit := λ w, (Return tt, show e w).

(** ** Characters *)

Definition is_upper (c : ascii) : bool :=
  let n := nat_of_ascii c in (65 <=? n)%nat && (n <=? 90)%nat.

Definition is_digit (c : ascii) : bool :=
  let n := nat_of_ascii c in (48 <=? n)%nat && (n <=? 57)%nat.

(** ** gspread: the calls the script makes

    The model keeps what the calls of [app.py] rely on.  A worksheet is
    found by its exact title; [add_worksheet] appends a blank sheet and
    is refused for a title that is taken.  [update] at a cell raises
    [InvalidJSONError] and sends nothing when a value is not a number
    JSON can carry; otherwise it sets the cells of the block that starts
    there and leaves every other cell as it was (it does not clear the
    sheet), and is refused when the block does not lie in the grid of
    the sheet.  [get_all_records] gets the text of the cells without the
    blank cells that end a row and the blank rows that end the sheet,
    completes the rows with blanks, raises when a name is repeated in
    the header row, and turns each further row into a record whose
    values are the texts as [numericise] reads them (a blank stays the
    empty text). *)

Module Gspread.

(** A1 notation of a single cell, as the service reads the range of an
    update: column letters, then the row number, both counted from 1. *)
Fixpoint column_letters (s : string) (acc : nat) : nat * string :=
  match s with
  | String c s' =>
      if is_upper c then column_letters s' (acc * 26 + (nat_of_ascii c - 64))
      else (acc, s)
  | EmptyString => (acc, s)
  end.

Fixpoint row_digits (s : string) (acc : nat) : option nat :=
  match s with
  | String c s' =>
      if is_digit c then row_digits s' (acc * 10 + (nat_of_ascii c - 48))
      else None
  | EmptyString => Some acc
  end.

Definition a1_to_rowcol (label : string) : option (nat * nat) :=
  let '(col, rest) := column_letters label 0 in
  match row_digits rest 0 with
  | Some row => if (0 <? row)%nat && (0 <? col)%nat then Some (row, col) else None
  | None => None
  end.

(** Writing a block over a grid: the cells of the block take the new
    values, every other cell keeps what it held.  The grid grows when
    the block reaches beyond it. *)
Fixpoint overlay {A} (put : A → A → A) (e : A) (new old : list A) : list A :=
  match new with
  | [] => old
  | x :: new' => put x (hd e old) :: overlay put e new' (tl old)
  end.

Definition put_cell (new old : value) : value := new.

(** [place] writes [new] from position [off] of [old] on. *)
Definition place {A} (put : A → A → A) (e : A) (off : nat)
    (new old : list A) : list A :=
  match new with
  | [] => old
  | _ => take off (old ++ replicate (off - length old) e)
         ++ overlay put e new (drop off old)
  end.

Definition put_block (row col : nat) (data grid : list (list value))
    : list (list value) :=
  place (place put_cell blank (col - 1)) [] (row - 1) data grid.

(** Values JSON can carry: every value but the floats that are not
    finite. *)
Definition serialisable (v : value) : bool :=
  match v with
  | VNaN | VInf _ => false
  | _ => true
  end.

Definition json_ok (data : list (list value)) : bool :=
  forallb (forallb serialisable) data.

(** A block of rows put at [row], [col] lies in the grid of a sheet. *)
Definition in_grid (row col : nat) (data : list (list value)) (ws : worksheet)
    : bool :=
  bool_decide (row - 1 + length data ≤ row_count ws)
  && forallb (λ r, bool_decide (col - 1 + length r ≤ col_count ws)) data.

(** The text a cell shows: a text as it is, a boolean in capitals, a
    number as the service formats it. *)
Definition cell_text (fmt : value → string) (v : value) : string :=
  match v with
  | VStr s => s
  | VBool true => "TRUE"
  | VBool false => "FALSE"
  | _ => fmt v
  end.

(** The service leaves out the blank cells that end a row and the blank
    rows that end the sheet. *)
Fixpoint trim_row (r : list string) : list string :=
  match r with
  | [] => []
  | c :: r' =>
      match trim_row r' with
      | [] => if decide (c = "") then [] else [c]
      | t => c :: t
      end
  end.

Fixpoint trim_rows (g : list (list string)) : list (list string) :=
  match g with
  | [] => []
  | r :: g' =>
      match trim_rows g', r with
      | [], [] => []
      | t, _ => r :: t
      end
  end.

(** [fill_gaps]: each row completed to the width of the widest. *)
Definition width {A} (g : list (list A)) : nat :=
  foldr (λ r m, length r `max` m) 0 g.

Definition fill_gaps {A} (e : A) (g : list (list A)) : list (list A) :=
  (λ r, r ++ replicate (width g - length r) e) <$> g.

(** [get_all_values] *)
Definition all_values (fmt : value → string) (g : list (list value))
    : list (list string) :=
  fill_gaps "" (trim_rows (trim_row <$> (fmap (cell_text fmt) <$> g))).

(** The value of a record for the text of a cell. *)
Definition read_value (num : string → value) (t : string) : value :=
  if decide (t = "") then VStr "" else num t.

(** The records of a sheet, or the exception for a header row that
    repeats a name. *)
Definition records (fmt : value → string) (num : string → value)
    (g : list (list value)) : outcome (list dict) :=
  match all_values fmt g with
  | [] => Return []
  | head :: rest =>
      if decide (NoDup head)
      then Return ((λ row, dict_zip head (read_value num <$> row)) <$> rest)
      else Raise GSpreadException
  end.

Fixpoint find_sheet (sh : spreadsheet) (name : string) : option worksheet :=
  match sh with
  | [] => None
  | ws :: sh' => if decide (title ws = name) then Some ws else find_sheet sh' name
  end.

Fixpoint replace_sheet (sh : spreadsheet) (name : string)
    (f : worksheet → worksheet) : spreadsheet :=
  match sh with
  | [] => []
  | ws :: sh' =>
      if decide (title ws = name) then f ws :: sh'
      else ws :: replace_sheet sh' name f
  end.

Definition set_cells (g : list (list value)) (ws : worksheet) : worksheet :=
  Worksheet (title ws) (row_count ws) (col_count ws) g.

(** A handle on an opened spreadsheet is its key; a handle on a
    worksheet is the key and the title. *)
Abbreviation Spreadsheet := string (only parsing).
Abbreviation WorksheetRef := (string * string)%type (only parsing).

(** [gc.open_by_key(key)] *)
Definition open_by_key (key : string) : script Spreadsheet :=
  λ w, match books w !! key with
       | Some _ => (Return key, w)
       | None => (Raise (SpreadsheetNotFound key), w)
       end.

(** [sh.worksheets()] *)
Definition worksheets (sh : Spreadsheet) : script (list worksheet) :=
  λ w, match books w !! sh with
       | Some b => (Return b, w)
       | None => (Raise (APIError "spreadsheet not found"), w)
       end.

(** [sh.add_worksheet(title, rows, cols)]: a blank sheet at the end;
    the service refuses a title that is taken. *)
Definition add_worksheet (sh : Spreadsheet) (name : string) (rows cols : nat)
    : script unit :=
  λ w, match books w !! sh with
       | Some b =>
           if decide (name ∈ title <$> b)
           then (Raise (APIError "sheet name already exists"), w)
           else (Return tt,
                 log (AddSheet sh name rows cols)
                   (set_books <[sh := b ++ [Worksheet name rows cols []]]> w))
       | None => (Raise (APIError "spreadsheet not found"), w)
       end.

(** [sh.worksheet(name)] *)
Definition worksheet_ (sh : Spreadsheet) (name : string) : script WorksheetRef :=
  λ w, match books w !! sh ≫= (λ b, find_sheet b name) with
       | Some _ => (Return (sh, name), w)
       | None => (Raise (WorksheetNotFound name), w)
       end.

(** [ws.get_all_records()] *)
Definition get_all_records (ws : WorksheetRef) : script (list dict) :=
  λ w, match books w !! ws.1 ≫= (λ b, find_sheet b ws.2) with
       | Some s => (records (formats w) (numericise w) (cells s), w)
       | None => (Raise (APIError "sheet not found"), w)
       end.

(** [ws.update(range, data)] *)
Definition update (ws : WorksheetRef) (range : string)
    (data : list (list value)) : script unit :=
  λ w, if negb (json_ok data) then (Raise InvalidJSONError, w)
       else
       match books w !! ws.1 with
       | Some b =>
           match find_sheet b ws.2, a1_to_rowcol range with
           | Some s, Some (row, col) =>
               if in_grid row col data s
               then
                 (Return tt,
                  log (ValuesUpdate ws.1 ws.2 range data)
                    (set_books
                       <[ws.1 := replace_sheet b ws.2
                                   (set_cells (put_block row col data (cells s)))]>
                       w))
               else (Raise (APIError "exceeds grid limits"), w)
           | None, _ => (Raise (APIError "sheet not found"), w)
           | _, None => (Raise (APIError "unable to parse range"), w)
           end
       | None => (Raise (APIError "spreadsheet not found"), w)
       end.

End Gspread.

(** ** app.py: the spreadsheet gateway *)

Definition needed : list string :=
  ["competitors"; "files"; "financial_runs"; "financial_metrics"; "news"].

(** [ensure_sheets(sh)], lines 34-39.  [existing] is read once, before
    the loop. *)
Definition ensure_sheets (sh : Gspread.Spreadsheet) : script unit :=
  let* wss := Gspread.worksheets sh in
  let existing := title <$> wss in
  for_each needed (λ name,
    if decide (name ∈ existing) then ret tt
    else Gspread.add_worksheet sh name 100 26).

(** [read_sheet(gc, sheet_id, name)], lines 41-44. *)
Definition read_sheet (sheet_id name : string) : script (list dict) :=
  let* sh := Gspread.open_by_key sheet_id in
  let* ws := Gspread.worksheet_ sh name in
  Gspread.get_all_records ws.

(** The rows [upsert_sheet] sends, lines 51-52. *)
Definition headers_of (rows : list dict) : list string :=
  match rows with
  | [] => []
  | first :: _ => keys first
  end.

Definition sheet_data (rows : list dict) : list (list value) :=
  let headers := headers_of rows in
  (VStr <$> headers) :: ((λ r, (λ h, get r h (VStr "")) <$> headers) <$> rows).

(** [upsert_sheet(gc, sheet_id, name, rows)], lines 46-53. *)
Definition upsert_sheet (sheet_id name : string) (rows : list dict) : script unit :=
  let* sh := Gspread.open_by_key sheet_id in
  let* ws := Gspread.worksheet_ sh name in
  match rows with
  | [] => ret tt
  | _ => Gspread.update ws "A1" (sheet_data rows)
  end.

(** ** pandas: the frames the pages build *)

Module Pandas.

(** Columns are collected in order of first appearance. *)
Definition add_columns (cols ks : list string) : list string :=
  foldl (λ cs k, if decide (k ∈ cs) then cs else cs ++ [k]) cols ks.

(** A record laid out on given columns; a missing entry is [NaN]. *)
Definition row_on (cols : list string) (r : dict) : list value :=
  (λ c, get r c VNaN) <$> cols.

(** [pd.DataFrame(records)] *)
Definition of_records (rs : list dict) : DataFrame :=
  let cols := foldl (λ cs r, add_columns cs (keys r)) [] rs in
  Frame cols (row_on cols <$> rs).

(** [pd.DataFrame()] *)
Definition no_frame : DataFrame := Frame [] [].

(** [pd.DataFrame({col: vals})] *)
Definition of_column (col : string) (vals : list value) : DataFrame :=
  Frame [col] ((λ v, [v]) <$> vals).

(** [df.empty]: no row or no column. *)
Definition empty (df : DataFrame) : bool :=
  match columns df, values df with
  | [], _ | _, [] => true
  | _, _ => false
  end.

(** [df.to_dict(orient="records")] *)
Definition to_records (df : DataFrame) : list dict :=
  dict_zip (columns df) <$> values df.

(** [pd.concat([a, b], ignore_index=True)]: the rows of [a] then those
    of [b], on the columns of [a] followed by the new ones of [b]. *)
Definition concat (a b : DataFrame) : DataFrame :=
  let cols := add_columns (columns a) (columns b) in
  Frame cols ((row_on cols <$> to_records a) ++ (row_on cols <$> to_records b)).

End Pandas.

(** ** Text *)

Definition lower_char (c : ascii) : ascii :=
  if is_upper c then ascii_of_nat (nat_of_ascii c + 32) else c.

(** [s.lower()] on ASCII text.  Python lowers letters outside ASCII as
    well; on a text with such letters this definition does not follow
    it, and the statements about the result ask for an ASCII text. *)
Fixpoint lower (s : string) : string :=
  match s with
  | EmptyString => EmptyString
  | String c s' => String (lower_char c) (lower s')
  end.

Fixpoint replace_from (old new : string) (skip : nat) (s : string) : string :=
  match s with
  | EmptyString => EmptyString
  | String c s' =>
      match skip with
      | S k => replace_from old new k s'
      | O =>
          if String.prefix old s
          then new +:+ replace_from old new (String.length old - 1) s'
          else String c (replace_from old new 0 s')
      end
  end.

(** [s.replace(old, new)] for a non-empty [old]. *)
Definition replace (old new s : string) : string := replace_from old new 0 s.

(** ** The run: configuration and what the user entered *)

Record secrets := Secrets {
  general_timezone : option string;
  google_service_account_json : option string;
  google_sheet_id : option string;
  google_drive_top_folder_id : option string
}.

(** The ten text inputs of the competitor form and its button. *)
Record comp_form := CompForm {
  in_name : string;
  in_website : string;
  in_ir_url : string;
  in_news_rss : string;
  in_linkedin_url : string;
  in_tickers : string;
  in_currency : string;
  in_fiscal_notes : string;
  in_drive_folder_id : string;
  in_tags : string;
  submitted : bool
}.

Record session := Session {
  st_secrets : secrets;
  local_time : string;
  navigate : string;
  comp_form_state : comp_form;
  service_account_info_ok : string → bool
}.

(** ** app.py: credentials and clients *)

(** [get_sa_creds()], lines 12-22: an absent or empty payload stops the
    run; a payload that does not parse raises. *)
Definition get_sa_creds (ss : session) : script string :=
  match google_service_account_json (st_secrets ss) with
  | None | Some EmptyString => stop
  | Some sa_json =>
      if service_account_info_ok ss sa_json then ret sa_json
      else raise CredentialsError
  end.

(** [get_gspread_client()], lines 24-27, under [st.cache_resource]. *)
Definition get_gspread_client (ss : session) : script string :=
  λ w, match gspread_client w with
       | Some gc => (Return gc, w)
       | None =>
           (let* creds := get_sa_creds ss in
            λ w', (Return creds, cache_gspread creds w')) w
       end.

(** [get_drive_service()], lines 29-32, under [st.cache_resource]. *)
Definition get_drive_service (ss : session) : script string :=
  λ w, match drive_service w with
       | Some ds => (Return ds, w)
       | None =>
           (let* creds := get_sa_creds ss in
            λ w', (Return creds, cache_drive creds w')) w
       end.

(** ** app.py: the pages *)

(** The identifier of line 80. *)
Definition competitor_id (name : string) : string :=
  match name with
  | EmptyString => ""
  | _ => replace " " "-" (lower name)
  end.

(** The record of lines 79-85. *)
Definition new_record (f : comp_form) : dict :=
  [ ("id", VStr (competitor_id (in_name f)));
    ("name", VStr (in_name f)); ("website", VStr (in_website f));
    ("ir_url", VStr (in_ir_url f)); ("news_rss", VStr (in_news_rss f));
    ("linkedin_url", VStr (in_linkedin_url f)); ("tickers", VStr (in_tickers f));
    ("currency", VStr (in_currency f));
    ("fiscal_calendar_notes", VStr (in_fiscal_notes f));
    ("drive_folder_id", VStr (in_drive_folder_id f));
    ("tags", VStr (in_tags f)); ("active(bool)", VBool true);
    ("created_at", VStr ""); ("updated_at", VStr "") ].

(** The records handed to [upsert_sheet] on submission, lines 86-87. *)
Definition submitted_records (rows : list dict) (f : comp_form) : list dict :=
  let df := Pandas.of_records rows in
  let new := new_record f in
  Pandas.to_records
    (if negb (Pandas.empty df) then Pandas.concat df (Pandas.of_records [new])
     else Pandas.of_records [new]).

Definition comp_form_labels : list string :=
  [ "Name"; "Website"; "IR URL"; "News RSS (optional)"; "LinkedIn (optional)";
    "Tickers (comma-separated)"; "Currency (e.g., EUR)"; "Fiscal calendar notes";
    "Drive folder ID (optional now)"; "Tags (comma-separated)" ].

(** [page_competitors(gc, sheet_id)], lines 56-88. *)
Definition page_competitors (f : comp_form) (sheet_id : string) : script unit :=
  render (header "Competitors") ;;
  let* sh := Gspread.open_by_key sheet_id in
  ensure_sheets sh ;;
  let* rows := read_sheet sheet_id "competitors" in
  let df := Pandas.of_records rows in
  render (subheader "Database") ;;
  render (dataframe (if negb (Pandas.empty df) then df
                     else Pandas.of_column "info" [VStr "No rows yet"])) ;;
  render (subheader "Add / Edit") ;;
  render (form "comp_form" comp_form_labels "Save") ;;
  if submitted f then
    upsert_sheet sheet_id "competitors" (submitted_records rows f) ;;
    render (success "Saved!")
  else ret tt.

(** The query of lines 95-97: the non-trashed children of a folder. *)
Definition list_children (folder_id : string) : script (list file) :=
  let q := "'" +:+ folder_id +:+ "' in parents and trashed=false" in
  λ w, match drive w q with
       | Failure e => (Raise e, w)
       | Response files => (Return (default [] files), w)
       end.

Definition file_line (it : file) : string :=
  "- [" +:+ file_name it +:+ "](" +:+ default "None" (file_webViewLink it)
  +:+ ") — " +:+ file_mimeType it.

(** [page_library(drive_service, top_folder_id)], lines 90-101. *)
Definition page_library (top_folder_id : string) : script unit :=
  render (header "Library (Google Drive)") ;;
  match top_folder_id with
  | EmptyString =>
      render (info "Set google.drive_top_folder_id in secrets and share that folder with your Service Account.")
  | _ =>
      let* items := list_children top_folder_id in
      match items with
      | [] => render (write "No items yet. Create a subfolder per competitor and drop files there.")
      | _ => ret tt
      end ;;
      for_each items (λ it, render (write (file_line it)))
  end.

(** [page_automations()], lines 103-107. *)
Definition page_automations : script unit :=
  render (header "Automations (coming in Phase 2)") ;;
  render (write "Here you’ll later have buttons to trigger:") ;;
  render (markdown "- Financials: Discover→Download
- Financials: Parse→Summarize
- Biweekly News
- Deck Builder") ;;
  render (info "We’ll add an OpenAI Agent + a simple scheduler in Phase 2.").

Definition no_data : DataFrame := Pandas.of_column "info" [VStr "No data yet"].

(** [page_reports(gc, sheet_id)], lines 109-122. *)
Definition page_reports (sheet_id : string) : script unit :=
  render (header "Reports") ;;
  let* fm := try_except
               (let* rows := read_sheet sheet_id "financial_metrics" in
                ret (Pandas.of_records rows))
               (ret Pandas.no_frame) in
  let* news := try_except
                 (let* rows := read_sheet sheet_id "news" in
                  ret (Pandas.of_records rows))
                 (ret Pandas.no_frame) in
  render (subheader "Financial metrics") ;;
  render (dataframe (if negb (Pandas.empty fm) then fm else no_data)) ;;
  render (subheader "News") ;;
  render (dataframe (if negb (Pandas.empty news) then news else no_data)).

(** ** app.py: the frame *)

Definition or_unset (s : string) : string :=
  match s with
  | EmptyString => "unset"
  | _ => s
  end.

Definition pages : list string :=
  ["Competitors"; "Library"; "Automations"; "Reports"].

(** [main()], lines 125-150. *)
Definition main (ss : session) : script unit :=
  render (sidebar_title "Competitor Intelligence") ;;
  render (sidebar_caption ("Local time: " +:+ local_time ss)) ;;
  let tz_info := default "Europe/Berlin" (general_timezone (st_secrets ss)) in
  render (sidebar_write ("Timezone: " +:+ tz_info)) ;;
  let sheet_id := default "" (google_sheet_id (st_secrets ss)) in
  let drive_top_folder_id := default "" (google_drive_top_folder_id (st_secrets ss)) in
  render (sidebar_radio "Navigate" pages) ;;
  let page := navigate ss in
  let* gc := get_gspread_client ss in
  let* drive_service := get_drive_service ss in
  (if decide (page = "Competitors") then page_competitors (comp_form_state ss) sheet_id
   else if decide (page = "Library") then page_library drive_top_folder_id
   else if decide (page = "Automations") then page_automations
   else page_reports sheet_id) ;;
  render (sidebar_markdown "---") ;;
  render (sidebar_write ("Google Sheet ID: " +:+ or_unset sheet_id)) ;;
  render (sidebar_write ("Drive folder: " +:+ or_unset drive_top_folder_id)).

(** ** Vocabulary of the statements *)

(** The world after some more elements were rendered. *)
Definition shows (es : list element) (w : world) : world :=
  World (books w) (drive w) (writes w) (screen w ++ es)
        (gspread_client w) (drive_service w) (formats w) (numericise w).

(** The cell in row [i], column [j] of a grid, counted from 0. *)
Definition cell_at (g : list (list value)) (i j : nat) : option value :=
  g !! i ≫= (.!! j).

(** A grid that lies inside the first [rows] rows and [cols] columns. *)
Definition within (g : list (list value)) (rows cols : nat) : Prop :=
  length g ≤ rows ∧ Forall (λ r, length r ≤ cols) g.

(** The content of a table of the store. *)
Definition table (w : world) (sheet_id name : string) : option (list (list value)) :=
  books w !! sheet_id ≫= λ b, cells <$> Gspread.find_sheet b name.

(** The sheet [ensure_sheets] creates for a name. *)
Definition fresh_sheet (name : string) : worksheet := Worksheet name 100 26 [].

(** The names [ensure_sheets] has to create in a spreadsheet. *)
Definition missing (b : spreadsheet) : list string :=
  filter (λ n, n ∉ title <$> b) needed.

(** What is read for a value that was put in a cell: the text the cell
    shows, as gspread reads it. *)
Definition shown (fmt : value → string) (num : string → value) (v : value)
    : value :=
  Gspread.read_value num (Gspread.cell_text fmt v).

(** The record read back for a written one: the fields of the header,
    each with what is read for the value written. *)
Definition read_back (fmt : value → string) (num : string → value)
    (headers : list string) (r : dict) : dict :=
  (λ h, (h, shown fmt num (get r h (VStr "")))) <$> headers.

(** A record whose row shows nothing under the header. *)
Definition shows_blank (fmt : value → string) (headers : list string) (r : dict)
    : bool :=
  forallb (λ h, bool_decide (Gspread.cell_text fmt (get r h (VStr "")) = ""))
    headers.

(** A sequence of records without the blank ones that end it. *)
Fixpoint without_blank_end (fmt : value → string) (headers : list string)
    (rows : list dict) : list dict :=
  match rows with
  | [] => []
  | r :: rows' =>
      match without_blank_end fmt headers rows' with
      | [] => if shows_blank fmt headers r then [] else [r]
      | t => r :: t
      end
  end.

(** What the Competitors page renders between its header and the
    submission, lines 62-77. *)
Definition competitors_view (rows : list dict) : list element :=
  [ subheader "Database";
    dataframe (if negb (Pandas.empty (Pandas.of_records rows))
               then Pandas.of_records rows
               else Pandas.of_column "info" [VStr "No rows yet"]);
    subheader "Add / Edit";
    form "comp_form" comp_form_labels "Save" ].

(** A header whose last name is not blank. *)
Definition ends_named (headers : list string) : Prop :=
  ∃ k, last headers = Some k ∧ k ≠ "".


(** ** Sample states, for the instances the theorems are run on *)

Definition silent_drive : string → response := λ _, Response None.

(** The two conversions of the sample states.  [read_numbers] reads a
    text made of digits as the number it writes and leaves the other
    texts of the samples as they are; [show_numbers] shows a whole
    number as its digits.  They stand for gspread and the service on
    the values the samples hold, and no theorem depends on them. *)
Definition read_numbers (t : string) : value :=
  match t with
  | EmptyString => VStr ""
  | _ =>
      match Gspread.row_digits t 0 with
      | Some n => VNum (Z.of_nat n)
      | None => VStr t
      end
  end.

Definition show_numbers (v : value) : string :=
  match v with
  | VNum z => pretty z
  | _ => ""
  end.

(** A store with one spreadsheet, ["sheet-1"], holding one table. *)
Definition one_table (name : string) (g : list (list value)) : world :=
  World {[ "sheet-1" := [Worksheet name 100 26 g] ]} silent_drive [] [] None None
        show_numbers read_numbers.

Definition rec_a1 : list (string * value) := [("a", VStr "1")].
Definition rec_a2_b3 : list (string * value) := [("a", VStr "2"); ("b", VStr "3")].
Definition rec_a9 : list (string * value) := [("a", VStr "9")].

(** A table with a header and two rows. *)
Definition two_rows : list (list value) := [[VStr "a"]; [VStr "1"]; [VStr "2"]].

(** The world after the sheets named [ns] were added to the spreadsheet
    [sheet_id], whose sheets were [b]. *)
Definition with_sheets (sheet_id : string) (b : list worksheet)
    (ns : list string) (w : world) : world :=
  World (<[sheet_id := b ++ (fresh_sheet <$> ns)]> (books w)) (drive w)
        (writes w ++ ((λ n, AddSheet sheet_id n 100 26) <$> ns)) (screen w)
        (gspread_client w) (drive_service w) (formats w) (numericise w).


Definition news_only : world :=
  one_table "news" [[VStr "headline"]; [VStr "Acme buys Apex"]].

(** A text with [f] applied to each character. *)
Fixpoint map_chars (f : ascii → ascii) (s : string) : string :=
  match s with
  | EmptyString => EmptyString
  | String c s' => String (f c) (map_chars f s')
  end.

(** A space becomes a hyphen, a capital letter its small letter. *)
Definition id_char (c : ascii) : ascii :=
  if Ascii.eqb c " " then "-"%char else lower_char c.

(** A run on the Reports page without the credential payload. *)
Definition no_credential : session :=
  Session (Secrets None None (Some "sheet-1") None) "2026-01-01 10:00" "Reports"
          (CompForm "" "" "" "" "" "" "" "" "" "" false) (λ _, true).

Definition acme_form : comp_form :=
  CompForm "Acme Corp" "https://acme.example" "" "" "" "ACME" "EUR" "" "" "" true.


(** ** Vocabulary of the frame properties *)

(** A computation keeps a relation when every run leaves the world it
    reaches related to the world it started from, whatever the outcome. *)
Definition keeps {A} (R : world → world → Prop) (c : script A) : Prop :=
  ∀ w, R w (c w).2.

(** The external services are as they were: same spreadsheets, same
    request log, same Drive answers. *)
Definition same_store (w w' : world) : Prop :=
  books w' = books w ∧ writes w' = writes w ∧ drive w' = drive w.

(** The cached clients are as they were. *)
Definition same_clients (w w' : world) : Prop :=
  gspread_client w' = gspread_client w ∧ drive_service w' = drive_service w.

(** The frame the Reports page shows for the outcome of a read,
    lines 111-122. *)
Definition shown_frame (o : outcome (list (list (string * value)))) : DataFrame :=
  match o with
  | Return rows =>
      if negb (Pandas.empty (Pandas.of_records rows)) then Pandas.of_records rows
      else no_data
  | _ => no_data
  end.

(** The Drive query of a folder, line 95. *)
Definition children_query (folder_id : string) : string :=
  "'" +:+ folder_id +:+ "' in parents and trashed=false".

(** The titles of the sheets of a spreadsheet of the store. *)
Definition titles (w : world) (sheet_id : string) : option (list string) :=
  match books w !! sheet_id with
  | Some b => Some (title <$> b)
  | None => None
  end.

(** Every character of a text passes a test. *)
Fixpoint all_chars (p : ascii → bool) (s : string) : bool :=
  match s with
  | EmptyString => true
  | String c s' => p c && all_chars p s'
  end.

(** A text of ASCII characters only: Python strings hold any Unicode
    character, and [lower] is [str.lower] on these texts. *)
Definition is_ascii_text (s : string) : bool :=
  all_chars (λ c, bool_decide (nat_of_ascii c < 128)) s.

(** The session of a run, given field by field. *)
Definition session_of (tz payload sheet folder : option string)
    (now page : string) (f : comp_form) (ok : string → bool) : session :=
  Session (Secrets tz payload sheet folder) now page f ok.

(** More sample states. *)

Definition two_files : list file :=
  [ File "f1" "Q3 report.pdf" "application/pdf" (Some "https://drive.example/f1");
    File "f2" "notes" "application/vnd.google-apps.folder" None ].

(** A world whose Drive lists [two_files] for every query. *)
Definition library_world : world :=
  World {[ "sheet-1" := [Worksheet "news" 100 26 []] ]}
        (λ _, Response (Some two_files)) [] [] None None
        show_numbers read_numbers.

(** A world whose Drive refuses every query. *)
Definition drive_down : world :=
  World ∅ (λ _, Failure (HttpError "backend error")) [] [] None None
        show_numbers read_numbers.

(** A world with an empty table and one where the table is missing. *)
Definition empty_metrics : world :=
  World {[ "sheet-1" := [Worksheet "financial_metrics" 100 26 [];
                         Worksheet "news" 100 26 []] ]}
        silent_drive [] [] None None show_numbers read_numbers.

Definition missing_metrics : world :=
  World {[ "sheet-1" := [Worksheet "news" 100 26 []] ]}
        silent_drive [] [] None None show_numbers read_numbers.

(** A run with a credential payload that parses. *)
Definition with_credential (page : string) : session :=
  Session (Secrets None (Some "payload") (Some "sheet-1") (Some "folder-1"))
          "2026-01-01 10:00" page acme_form (λ _, true).

(** A world in which both clients are cached already. *)
Definition warm : world :=
  World {[ "sheet-1" := [Worksheet "news" 100 26 []] ]} silent_drive [] []
        (Some "payload") (Some "payload") show_numbers read_numbers.

(** ** Dictionaries *)


Lemma dict_set_fresh d k v : k ∉ keys d → dict_set d k v = d ++ [(k, v)].
Proof.
  unfold keys. induction d as [|[k0 v0] d IH]; simpl; intros Hk; [done|].
  apply not_elem_of_cons in Hk as [Hne Hk].
  rewrite decide_False by done. by rewrite IH.
Qed.

Lemma dict_zip_from ks vs d :
  NoDup ks → (∀ k, k ∈ ks → k ∉ keys d) →
  foldl (λ d kv, dict_set d kv.1 kv.2) d (zip ks vs) = d ++ zip ks vs.
Proof.
  revert vs d. induction ks as [|k ks IH]; intros vs d Hnd Hd; simpl.
  - by rewrite app_nil_r.
  - destruct vs as [|v vs]; simpl; [by rewrite app_nil_r|].
    apply NoDup_cons in Hnd as [Hk Hnd].
    rewrite dict_set_fresh by (apply Hd; left).
    rewrite IH, <- app_assoc; [done..|].
    intros k' Hk'. unfold keys. rewrite fmap_app, elem_of_app. simpl.
    intros [H|H%list_elem_of_singleton].
    + by eapply Hd; [right|].
    + by subst.
Qed.

Lemma dict_zip_nodup ks vs : NoDup ks → dict_zip ks vs = zip ks vs.
Proof.
  intros Hnd. unfold dict_zip. rewrite dict_zip_from; [done..|].
  intros k _. unfold keys. simpl. apply not_elem_of_nil.
Qed.



Lemma dict_get_zip (f : string → value) ks k :
  dict_get (zip ks (f <$> ks)) k = if decide (k ∈ ks) then Some (f k) else None.
Proof.
  induction ks as [|k0 ks IH]; [done|].
  cbn [fmap list_fmap zip zip_with dict_get]. rewrite IH.
  destruct (decide (k0 = k)) as [->|Hne].
  - rewrite decide_True; [done|]. by left.
  - destruct (decide (k ∈ ks)) as [Hin|Hnin].
    + rewrite decide_True; [done|]. by right.
    + rewrite decide_False; [done|]. by intros [?|?]%elem_of_cons.
Qed.

Lemma dict_get_del d k h : h ≠ k → dict_get (dict_del d k) h = dict_get d h.
Proof.
  intros Hne. induction d as [|[k0 v0] d IH]; [done|]. simpl.
  destruct (decide (k0 = k)) as [->|H0]; simpl.
  - by rewrite decide_False.
  - by rewrite IH.
Qed.

(** ** Grids *)

Section Overlay.
Context {A : Type} (put : A → A → A) (e : A).

Lemma overlay_lookup (new old : list A) i :
  Gspread.overlay put e new old !! i
  = match new !! i with
    | Some x => Some (put x (default e (old !! i)))
    | None => old !! i
    end.
Proof.
  revert old i. induction new as [|x new IH]; intros old i; [done|].
  destruct i as [|i]; simpl.
  - by destruct old.
  - rewrite IH. by destruct old.
Qed.

Lemma place_first (new old : list A) :
  Gspread.place put e 0 new old = Gspread.overlay put e new old.
Proof. by destruct new. Qed.

End Overlay.

Lemma put_block_lookup data old i :
  Gspread.put_block 1 1 data old !! i
  = match data !! i with
    | Some r => Some (Gspread.overlay Gspread.put_cell blank r (default [] (old !! i)))
    | None => old !! i
    end.
Proof.
  unfold Gspread.put_block. simpl. rewrite place_first, overlay_lookup.
  destruct (data !! i); [|done]. by rewrite place_first.
Qed.

(** A cell after a write at the first cell: the value of the block where
    the block has one, the previous value elsewhere. *)
Lemma cell_at_put_block data old i j :
  cell_at (Gspread.put_block 1 1 data old) i j
  = match cell_at data i j with
    | Some v => Some v
    | None => cell_at old i j
    end.
Proof.
  unfold cell_at. rewrite put_block_lookup.
  destruct (data !! i) as [r|]; simpl; [|done].
  rewrite overlay_lookup. destruct (r !! j); [done|].
  by destruct (old !! i).
Qed.

Lemma overlay_cells_within r o :
  length o ≤ length r → Gspread.overlay Gspread.put_cell blank r o = r.
Proof.
  intros Hl. apply list_eq. intros j. rewrite overlay_lookup.
  destruct (r !! j) eqn:E; [done|].
  apply lookup_ge_None. apply lookup_ge_None in E. lia.
Qed.

Lemma put_block_within data old cols :
  Forall (λ r, length r = cols) data → within old (length data) cols →
  Gspread.put_block 1 1 data old = data.
Proof.
  intros Hd [Hlen Hold]. apply list_eq. intros i. rewrite put_block_lookup.
  destruct (data !! i) as [r|] eqn:E.
  - f_equal. apply overlay_cells_within.
    rewrite Forall_lookup in Hd. rewrite (Hd _ _ E).
    destruct (old !! i) as [o|] eqn:Eo; simpl; [|lia].
    rewrite Forall_lookup in Hold. by apply (Hold _ _ Eo).
  - apply lookup_ge_None. apply lookup_ge_None in E. lia.
Qed.

Lemma sheet_data_rect rows :
  Forall (λ r, length r = length (headers_of rows)) (sheet_data rows).
Proof.
  unfold sheet_data. constructor.
  - by rewrite length_fmap.
  - apply Forall_fmap, Forall_true. intros r. simpl. by rewrite length_fmap.
Qed.

Lemma sheet_data_length rows : length (sheet_data rows) = S (length rows).
Proof. unfold sheet_data. simpl. by rewrite length_fmap. Qed.

Lemma zip_fmap_self {A B} (f : A → B) (l : list A) :
  zip l (f <$> l) = (λ x, (x, f x)) <$> l.
Proof. induction l; simpl; by f_equal. Qed.

Lemma width_le {A} (g : list (list A)) n :
  Forall (λ r, length r ≤ n) g → Gspread.width g ≤ n.
Proof. unfold Gspread.width. induction 1; simpl; lia. Qed.

Lemma trim_row_length r : length (Gspread.trim_row r) ≤ length r.
Proof.
  induction r as [|c r IH]; simpl; [done|].
  destruct (Gspread.trim_row r); [destruct (decide (c = "")); simpl; lia|].
  simpl in *. lia.
Qed.

Lemma trim_row_fill r :
  Gspread.trim_row r ++ replicate (length r - length (Gspread.trim_row r)) ""
  = r.
Proof.
  induction r as [|c r IH]; simpl; [done|].
  pose proof (trim_row_length r) as Hl.
  destruct (Gspread.trim_row r) as [|c' t] eqn:E.
  - simpl in IH. rewrite Nat.sub_0_r in IH.
    destruct (decide (c = "")) as [->|Hc]; simpl; by rewrite ?Nat.sub_0_r, IH.
  - simpl in *. by rewrite IH.
Qed.

Lemma trim_row_named r : ends_named r → Gspread.trim_row r = r.
Proof.
  intros (k & Hlast & Hk). induction r as [|c r IH]; [done|]. simpl.
  destruct r as [|c' r].
  - simpl in *. injection Hlast as ->. by rewrite decide_False.
  - rewrite IH by done. done.
Qed.

Lemma trim_row_blank r :
  Gspread.trim_row r = [] ↔ forallb (λ c, bool_decide (c = "")) r = true.
Proof.
  induction r as [|c r IH]; simpl; [done|].
  destruct (Gspread.trim_row r) as [|c' t].
  - destruct (decide (c = "")) as [->|Hc].
    + simpl. split; [intros _; by apply IH|done].
    + rewrite bool_decide_eq_false_2 by done. done.
  - split; [done|]. intros [_ H]%andb_prop. by apply IH in H.
Qed.

Lemma trim_rows_cons h g :
  h ≠ [] → Gspread.trim_rows (h :: g) = h :: Gspread.trim_rows g.
Proof. intros Hh. simpl. destruct (Gspread.trim_rows g); by destruct h. Qed.

(** Rows that are complete to the width of the widest after trimming
    are given back whole. *)
Lemma fill_gaps_trimmed g n :
  Forall (λ r, length r = n) g → Gspread.width (Gspread.trim_row <$> g) = n →
  Gspread.fill_gaps "" (Gspread.trim_row <$> g) = g.
Proof.
  intros Hg Hw. unfold Gspread.fill_gaps. rewrite Hw. clear Hw.
  induction Hg as [|r g Hr Hg IH]; [done|].
  rewrite !fmap_cons, IH. f_equal. rewrite <- Hr. apply trim_row_fill.
Qed.

Lemma width_named h g n :
  Gspread.trim_row h = h → length h = n → Forall (λ r, length r = n) g →
  Gspread.width (Gspread.trim_row <$> h :: g) = n.
Proof.
  intros Hh Hl Hg. apply Nat.le_antisymm.
  - apply width_le. apply Forall_fmap. constructor.
    + simpl. rewrite Hh. lia.
    + eapply Forall_impl; [done|]. intros r Hr. simpl in *.
      pose proof (trim_row_length r). lia.
  - unfold Gspread.width. rewrite fmap_cons. simpl. rewrite Hh. lia.
Qed.

Lemma shows_blank_trim fmt hs r :
  shows_blank fmt hs r = true
  ↔ Gspread.trim_row (Gspread.cell_text fmt <$> ((λ h, get r h (VStr "")) <$> hs)) = [].
Proof.
  rewrite trim_row_blank. unfold shows_blank.
  rewrite <- list_fmap_compose.
  induction hs as [|h hs IH]; simpl; [done|].
  destruct (bool_decide _); simpl; [done|done].
Qed.

Lemma trim_rows_records fmt hs (rows : list (list (string * value))) :
  Gspread.trim_rows
    (Gspread.trim_row
       <$> (fmap (Gspread.cell_text fmt)
              <$> ((λ r, (λ h, get r h (VStr "")) <$> hs) <$> rows)))
  = Gspread.trim_row
      <$> (fmap (Gspread.cell_text fmt)
             <$> ((λ r, (λ h, get r h (VStr "")) <$> hs)
                    <$> without_blank_end fmt hs rows)).
Proof.
  induction rows as [|r rows IH]; [done|].
  rewrite !fmap_cons. cbn [Gspread.trim_rows without_blank_end]. rewrite IH.
  destruct (without_blank_end fmt hs rows) as [|r' t].
  - cbn [fmap list_fmap].
    destruct (shows_blank fmt hs r) eqn:E.
    + apply shows_blank_trim in E. rewrite E. reflexivity.
    + destruct (Gspread.trim_row _) eqn:E'.
      * apply shows_blank_trim in E'. congruence.
      * rewrite !list_fmap_singleton. by rewrite E'.
  - rewrite !fmap_cons.
    by destruct (Gspread.trim_row (Gspread.cell_text fmt <$> _)).
Qed.

Lemma all_values_sheet_data fmt (rows : list (list (string * value))) :
  ends_named (headers_of rows) →
  Gspread.all_values fmt (sheet_data rows)
  = headers_of rows
      :: ((λ r, (λ h, Gspread.cell_text fmt (get r h (VStr ""))) <$> headers_of rows)
            <$> without_blank_end fmt (headers_of rows) rows).
Proof.
  unfold Gspread.all_values, sheet_data. cbv zeta.
  generalize (headers_of rows). intros hs Hn.
  rewrite !fmap_cons.
  assert (Gspread.cell_text fmt <$> (VStr <$> hs) = hs) as ->.
  { rewrite <- list_fmap_compose. rewrite (list_fmap_ext _ id hs) by done.
    apply list_fmap_id. }
  rewrite (trim_row_named hs Hn).
  rewrite trim_rows_cons by (destruct Hn as (k & Hk & _); by destruct hs).
  rewrite trim_rows_records.
  rewrite <- (trim_row_named hs Hn) at 1. rewrite <- fmap_cons.
  rewrite (fill_gaps_trimmed _ (length hs)).
  - f_equal. rewrite <- list_fmap_compose. apply list_fmap_ext.
    intros _ r _. simpl. by rewrite <- list_fmap_compose.
  - constructor; [done|]. apply Forall_fmap, Forall_fmap, Forall_true.
    intros r. simpl. by rewrite !length_fmap.
  - apply width_named; [by apply trim_row_named|done|].
    apply Forall_fmap, Forall_fmap, Forall_true.
    intros r. simpl. by rewrite !length_fmap.
Qed.

(** Reading the rows [upsert_sheet] sends gives back one record per
    written record, without the blank ones that end the sequence, on the
    fields of the header. *)
Lemma records_sheet_data fmt num (rows : list (list (string * value))) :
  NoDup (headers_of rows) → ends_named (headers_of rows) →
  Gspread.records fmt num (sheet_data rows)
  = Return (read_back fmt num (headers_of rows)
              <$> without_blank_end fmt (headers_of rows) rows).
Proof.
  intros Hnd Hn. unfold Gspread.records.
  rewrite (all_values_sheet_data fmt rows Hn). rewrite decide_True by done.
  f_equal. rewrite <- list_fmap_compose. apply list_fmap_ext. intros _ r _. simpl.
  rewrite dict_zip_nodup by done. rewrite <- list_fmap_compose.
  unfold read_back. rewrite <- (zip_fmap_self (λ h, shown fmt num (get r h (VStr "")))).
  done.
Qed.

(** ** The store *)

Lemma find_replace_sheet b n f ws :
  (∀ s, title (f s) = title s) →
  Gspread.find_sheet b n = Some ws →
  Gspread.find_sheet (Gspread.replace_sheet b n f) n = Some (f ws).
Proof.
  intros Hf. induction b as [|s b IH]; simpl; [done|].
  destruct (decide (title s = n)) as [Hs|Hs]; simpl.
  - intros [= ->]. by rewrite Hf, decide_True.
  - intros Hfind. rewrite decide_False by done. auto.
Qed.

Lemma find_replace_sheet_ne b n n' f :
  (∀ s, title (f s) = title s) → n' ≠ n →
  Gspread.find_sheet (Gspread.replace_sheet b n f) n' = Gspread.find_sheet b n'.
Proof.
  intros Hf Hne. induction b as [|s b IH]; simpl; [done|].
  destruct (decide (title s = n)) as [Hs|Hs]; simpl.
  - rewrite Hf. rewrite !decide_False by congruence. done.
  - by rewrite IH.
Qed.

(** Reading a sheet returns or raises for a repeated header name. *)
Lemma records_outcome fmt num g :
  (∃ rows, Gspread.records fmt num g = Return rows)
  ∨ Gspread.records fmt num g = Raise GSpreadException.
Proof.
  unfold Gspread.records. destruct (Gspread.all_values fmt g) as [|h rest].
  - left. by eexists.
  - destruct (decide (NoDup h)); [left; by eexists|by right].
Qed.

Lemma read_sheet_run sheet_id name w :
  read_sheet sheet_id name w
  = (match books w !! sheet_id with
     | None => Raise (SpreadsheetNotFound sheet_id)
     | Some b =>
         match Gspread.find_sheet b name with
         | Some s => Gspread.records (formats w) (numericise w) (cells s)
         | None => Raise (WorksheetNotFound name)
         end
     end, w).
Proof.
  unfold read_sheet, bind, Gspread.open_by_key, Gspread.worksheet_,
    Gspread.get_all_records.
  destruct (books w !! sheet_id) as [b|] eqn:Hb; simpl; [|done].
  rewrite Hb. simpl.
  destruct (Gspread.find_sheet b name) eqn:Hf; simpl; [|done].
  by rewrite Hb; simpl; rewrite Hf.
Qed.

Lemma update_run sheet_id name data w b ws :
  books w !! sheet_id = Some b → Gspread.find_sheet b name = Some ws →
  Gspread.update (sheet_id, name) "A1" data w
  = if negb (Gspread.json_ok data) then (Raise InvalidJSONError, w)
    else if Gspread.in_grid 1 1 data ws
    then (Return tt,
          log (ValuesUpdate sheet_id name "A1" data)
            (set_books
               <[sheet_id := Gspread.replace_sheet b name
                    (Gspread.set_cells (Gspread.put_block 1 1 data (cells ws)))]>
               w))
    else (Raise (APIError "exceeds grid limits"), w).
Proof.
  intros Hb Hf. unfold Gspread.update. cbn [fst snd]. rewrite Hb, Hf.
  by destruct (Gspread.json_ok data).
Qed.

(** With a record to write, [upsert_sheet] on a table that exists is the
    update of the table: the guard of line 49 is not taken. *)
Lemma upsert_sheet_update sheet_id name first rest w b ws :
  books w !! sheet_id = Some b → Gspread.find_sheet b name = Some ws →
  upsert_sheet sheet_id name (first :: rest) w
  = Gspread.update (sheet_id, name) "A1" (sheet_data (first :: rest)) w.
Proof.
  intros Hb Hf.
  unfold upsert_sheet, bind, Gspread.open_by_key, Gspread.worksheet_.
  by repeat first [rewrite Hb | rewrite Hf | progress cbn [fst snd mbind option_bind]].
Qed.

Lemma upsert_sheet_run sheet_id name first rest w b ws :
  books w !! sheet_id = Some b → Gspread.find_sheet b name = Some ws →
  Gspread.json_ok (sheet_data (first :: rest)) = true →
  Gspread.in_grid 1 1 (sheet_data (first :: rest)) ws = true →
  upsert_sheet sheet_id name (first :: rest) w
  = (Return tt,
     log (ValuesUpdate sheet_id name "A1" (sheet_data (first :: rest)))
       (set_books
          <[sheet_id := Gspread.replace_sheet b name
               (Gspread.set_cells
                  (Gspread.put_block 1 1 (sheet_data (first :: rest)) (cells ws)))]>
          w)).
Proof.
  intros Hb Hf Hj Hg.
  rewrite (upsert_sheet_update _ _ _ _ _ _ _ Hb Hf), (update_run _ _ _ _ _ _ Hb Hf).
  by rewrite Hj, Hg.
Qed.

Lemma upsert_sheet_refused sheet_id name first rest w b ws :
  books w !! sheet_id = Some b → Gspread.find_sheet b name = Some ws →
  Gspread.json_ok (sheet_data (first :: rest)) = false →
  upsert_sheet sheet_id name (first :: rest) w = (Raise InvalidJSONError, w).
Proof.
  intros Hb Hf Hj.
  rewrite (upsert_sheet_update _ _ _ _ _ _ _ Hb Hf), (update_run _ _ _ _ _ _ Hb Hf).
  by rewrite Hj.
Qed.

Lemma in_grid_sheet_data rows ws :
  S (length rows) ≤ row_count ws → length (headers_of rows) ≤ col_count ws →
  Gspread.in_grid 1 1 (sheet_data rows) ws = true.
Proof.
  intros Hr Hc. unfold Gspread.in_grid. apply andb_true_intro. split.
  - apply bool_decide_eq_true. rewrite sheet_data_length. simpl. lia.
  - apply forallb_forall. intros r Hin. apply bool_decide_eq_true.
    apply list_elem_of_In in Hin.
    pose proof (sheet_data_rect rows) as Hrect.
    rewrite Forall_forall in Hrect. rewrite (Hrect _ Hin). simpl. lia.
Qed.

Lemma table_after_upsert sheet_id name first rest w b ws :
  books w !! sheet_id = Some b → Gspread.find_sheet b name = Some ws →
  Gspread.json_ok (sheet_data (first :: rest)) = true →
  Gspread.in_grid 1 1 (sheet_data (first :: rest)) ws = true →
  table (upsert_sheet sheet_id name (first :: rest) w).2 sheet_id name
  = Some (Gspread.put_block 1 1 (sheet_data (first :: rest)) (cells ws)).
Proof.
  intros Hb Hf Hj Hg. rewrite (upsert_sheet_run _ _ _ _ _ _ _ Hb Hf Hj Hg).
  unfold table. simpl. rewrite lookup_insert_eq. simpl.
  by rewrite (find_replace_sheet _ _ _ ws).
Qed.

(** ** The spreadsheet gateway *)

(** C2: [upsert_sheet] with no record leaves the world as it is,
    whatever the table name: nothing is sent to the store, no table
    changes, and the call returns when the table exists (it raises when
    the spreadsheet or the table cannot be found, as any lookup does). *)
Theorem upsert_sheet_empty_noop sheet_id name w :
  (upsert_sheet sheet_id name [] w).2 = w
  ∧ writes (upsert_sheet sheet_id name [] w).2 = writes w
  ∧ table (upsert_sheet sheet_id name [] w).2 sheet_id name = table w sheet_id name
  ∧ (upsert_sheet sheet_id name [] w).1
    = match books w !! sheet_id with
      | None => Raise (SpreadsheetNotFound sheet_id)
      | Some b =>
          match Gspread.find_sheet b name with
          | Some _ => Return tt
          | None => Raise (WorksheetNotFound name)
          end
      end.
Proof.
  assert (upsert_sheet sheet_id name [] w
          = (match books w !! sheet_id with
             | None => Raise (SpreadsheetNotFound sheet_id)
             | Some b =>
                 match Gspread.find_sheet b name with
                 | Some _ => Return tt
                 | None => Raise (WorksheetNotFound name)
                 end
             end, w)) as ->.
  { unfold upsert_sheet, bind, Gspread.open_by_key, Gspread.worksheet_.
    destruct (books w !! sheet_id) as [b|] eqn:Hb; simpl; [|done].
    rewrite Hb. simpl. by destruct (Gspread.find_sheet b name). }
  done.
Qed.

Lemma get_dict_del r k h d : h ≠ k → get (dict_del r k) h d = get r h d.
Proof. intros Hne. unfold get. by rewrite dict_get_del. Qed.

Lemma sheet_data_del first rest k :
  k ∉ keys first →
  sheet_data (first :: ((λ r, dict_del r k) <$> rest)) = sheet_data (first :: rest).
Proof.
  intros Hk. unfold sheet_data. simpl. f_equal. f_equal.
  rewrite <- list_fmap_compose. apply list_fmap_ext. intros _ r _. simpl.
  apply list_fmap_ext. intros i h Hh. apply get_dict_del.
  intros E. subst h. apply Hk. by eapply list_elem_of_lookup_2.
Qed.

(** C9: a key of a later record that the first record does not have is
    dropped: it is not in the header row that is written, and what is
    written (hence the world after the call) is the same as if no later
    record had the key at all. *)
Theorem upsert_sheet_drops_later_keys sheet_id name first rest k w :
  k ∉ keys first →
  head (sheet_data (first :: rest)) = Some (VStr <$> keys first)
  ∧ (VStr k ∉ VStr <$> keys first)
  ∧ sheet_data (first :: rest)
    = sheet_data (first :: ((λ r, dict_del r k) <$> rest))
  ∧ upsert_sheet sheet_id name (first :: rest) w
    = upsert_sheet sheet_id name (first :: ((λ r, dict_del r k) <$> rest)) w.
Proof.
  intros Hk. split; [done|]. split.
  { intros (h & [= ->] & Hh)%list_elem_of_fmap. done. }
  split; [by rewrite sheet_data_del|].
  unfold upsert_sheet. by rewrite sheet_data_del.
Qed.

Lemma upsert_sheet_drops_later_keys_witness :
  ("b" ∉ keys rec_a1)
  ∧ sheet_data [rec_a1; rec_a2_b3] = [[VStr "a"]; [VStr "1"]; [VStr "2"]]
  ∧ upsert_sheet "sheet-1" "news" [rec_a1; rec_a2_b3] (one_table "news" [])
    = upsert_sheet "sheet-1" "news" [rec_a1; [("a", VStr "2")]] (one_table "news" []).
Proof.
  assert ("b" ∉ keys rec_a1) as Hk.
  { intros [H|H]%elem_of_cons; [done|by apply elem_of_nil in H]. }
  split; [done|]. split; [done|].
  exact (proj2 (proj2 (proj2
    (upsert_sheet_drops_later_keys "sheet-1" "news" rec_a1 [rec_a2_b3] "b"
       (one_table "news" []) Hk)))).
Defined.

(** C7, as amended: for a non-empty sequence of records the rows
    [upsert_sheet] sends are the header made of the keys of the first
    record, then one row per record with the empty text where a record
    lacks a header key.  On a table that exists the call is refused
    before anything is sent when one of the values is a float that is
    not finite (the [NaN] of a missing entry for one), and refused by
    the service when the rows do not lie in the grid of the sheet (they
    do when the sheet has a row for the header and for each record, and
    a column for each key of the first record); the world is then as it
    was.  Otherwise the call returns after one
    request, an update at ["A1"] with these rows.  In the table every
    cell of that block holds the new value whatever it held, every cell
    outside the block holds what it held, and the other tables are
    untouched; when the previous content lies inside the block the table
    holds exactly the rows sent. *)
Theorem upsert_sheet_writes_block sheet_id name first rest w b ws :
  books w !! sheet_id = Some b →
  Gspread.find_sheet b name = Some ws →
  let rows := first :: rest in
  let data := sheet_data rows in
  let w' := (upsert_sheet sheet_id name rows w).2 in
  Gspread.a1_to_rowcol "A1" = Some (1, 1)
  ∧ head data = Some (VStr <$> keys first)
  ∧ tail data = (λ r, (λ h, get r h (VStr "")) <$> keys first) <$> rows
  ∧ length data = S (length rows)
  ∧ (S (length rows) ≤ row_count ws → length (keys first) ≤ col_count ws →
     Gspread.in_grid 1 1 data ws = true)
  ∧ (Gspread.json_ok data = false →
     upsert_sheet sheet_id name rows w = (Raise InvalidJSONError, w))
  ∧ (Gspread.json_ok data = true → Gspread.in_grid 1 1 data ws = false →
     upsert_sheet sheet_id name rows w
     = (Raise (APIError "exceeds grid limits"), w))
  ∧ (Gspread.json_ok data = true → Gspread.in_grid 1 1 data ws = true →
     (upsert_sheet sheet_id name rows w).1 = Return tt
     ∧ writes w' = writes w ++ [ValuesUpdate sheet_id name "A1" data]
     ∧ (∃ g, table w' sheet_id name = Some g
             ∧ ∀ i j, cell_at g i j = match cell_at data i j with
                                      | Some v => Some v
                                      | None => cell_at (cells ws) i j
                                      end)
     ∧ (∀ other, other ≠ name → table w' sheet_id other = table w sheet_id other)
     ∧ (within (cells ws) (length data) (length (keys first)) →
        table w' sheet_id name = Some data)).
Proof.
  intros Hb Hf. cbv zeta.
  split; [done|]. split; [done|]. split; [done|].
  split; [apply sheet_data_length|].
  split; [apply (in_grid_sheet_data (first :: rest))|].
  split; [by apply (upsert_sheet_refused _ _ _ _ _ b ws)|]. split.
  { intros Hj Hg.
    rewrite (upsert_sheet_update _ _ _ _ _ _ _ Hb Hf),
      (update_run _ _ _ _ _ _ Hb Hf).
    by rewrite Hj, Hg. }
  intros Hj Hg.
  pose proof (table_after_upsert sheet_id name first rest w b ws Hb Hf Hj Hg) as Ht.
  rewrite (upsert_sheet_run _ _ _ _ _ _ _ Hb Hf Hj Hg) in *.
  split; [done|]. split; [done|].
  split; [|split].
  - eexists. split; [exact Ht|]. apply cell_at_put_block.
  - intros other Hne. unfold table. simpl. rewrite lookup_insert_eq, Hb. simpl.
    by rewrite find_replace_sheet_ne.
  - intros Hin. rewrite Ht. f_equal.
    eapply put_block_within; [apply sheet_data_rect|done].
Qed.

Lemma upsert_sheet_writes_block_witness :
  books (one_table "news" []) !! "sheet-1" = Some [Worksheet "news" 100 26 []]
  ∧ Gspread.find_sheet [Worksheet "news" 100 26 []] "news"
    = Some (Worksheet "news" 100 26 [])
  ∧ writes (upsert_sheet "sheet-1" "news" [rec_a1; rec_a2_b3]
              (one_table "news" [])).2
    = [ValuesUpdate "sheet-1" "news" "A1" [[VStr "a"]; [VStr "1"]; [VStr "2"]]]
  ∧ table (upsert_sheet "sheet-1" "news" [rec_a1; rec_a2_b3]
             (one_table "news" [])).2 "sheet-1" "news"
    = Some [[VStr "a"]; [VStr "1"]; [VStr "2"]].
Proof.
  split; [reflexivity|]. split; [reflexivity|].
  assert (within (cells (Worksheet "news" 100 26 [])) 3 1) as Hin.
  { split; [simpl; lia|constructor]. }
  destruct (upsert_sheet_writes_block "sheet-1" "news" rec_a1 [rec_a2_b3]
              (one_table "news" []) [Worksheet "news" 100 26 []]
              (Worksheet "news" 100 26 []) eq_refl eq_refl)
    as (_ & _ & _ & _ & _ & _ & _ & Hok).
  destruct (Hok eq_refl eq_refl) as (_ & Hw & _ & _ & Ht).
  split; [exact Hw|exact (Ht Hin)].
Defined.

(** C7, as stated, fails: a table that held a header and two rows holds,
    after one record is written, the new header and row and still the old
    second row; its content is not the rows that were sent, and a read
    gives two records. *)
Lemma upsert_sheet_leaves_rows_below :
  table (one_table "news" two_rows) "sheet-1" "news"
  = Some [[VStr "a"]; [VStr "1"]; [VStr "2"]]
  ∧ sheet_data [rec_a9] = [[VStr "a"]; [VStr "9"]]
  ∧ table (upsert_sheet "sheet-1" "news" [rec_a9] (one_table "news" two_rows)).2
      "sheet-1" "news"
    = Some [[VStr "a"]; [VStr "9"]; [VStr "2"]]
  ∧ table (upsert_sheet "sheet-1" "news" [rec_a9] (one_table "news" two_rows)).2
      "sheet-1" "news"
    ≠ Some (sheet_data [rec_a9])
  ∧ (read_sheet "sheet-1" "news"
       (upsert_sheet "sheet-1" "news" [rec_a9] (one_table "news" two_rows)).2).1
    = Return [[("a", VNum 9)]; [("a", VNum 2)]].
Proof. vm_compute. by repeat split. Qed.

Lemma keys_read_back fmt num hs r : keys (read_back fmt num hs r) = hs.
Proof.
  unfold keys, read_back. rewrite <- list_fmap_compose.
  rewrite (list_fmap_ext _ id hs) by done. apply list_fmap_id.
Qed.

Lemma dict_get_read_back fmt num hs r k :
  dict_get (read_back fmt num hs r) k
  = if decide (k ∈ hs) then Some (shown fmt num (get r k (VStr ""))) else None.
Proof.
  unfold read_back.
  rewrite <- (zip_fmap_self (λ h, shown fmt num (get r h (VStr "")))).
  apply dict_get_zip.
Qed.

Lemma without_blank_end_last fmt hs (rows : list (list (string * value))) r :
  last rows = Some r → shows_blank fmt hs r = false →
  without_blank_end fmt hs rows = rows.
Proof.
  induction rows as [|r0 rows IH]; [done|]. intros Hlast Hr.
  cbn [without_blank_end]. destruct rows as [|r1 rows].
  - injection Hlast as ->. cbn [without_blank_end]. by rewrite Hr.
  - rewrite IH by done. done.
Qed.


(** The table left by an accepted update over content that lies inside
    the written block is read as the written records. *)
Lemma read_after_upsert sheet_id name first rest w b ws :
  books w !! sheet_id = Some b →
  Gspread.find_sheet b name = Some ws →
  NoDup (keys first) →
  ends_named (keys first) →
  Gspread.json_ok (sheet_data (first :: rest)) = true →
  Gspread.in_grid 1 1 (sheet_data (first :: rest)) ws = true →
  within (cells ws) (S (length (first :: rest))) (length (keys first)) →
  read_sheet sheet_id name (upsert_sheet sheet_id name (first :: rest) w).2
  = (Return (read_back (formats w) (numericise w) (keys first)
               <$> without_blank_end (formats w) (keys first) (first :: rest)),
     (upsert_sheet sheet_id name (first :: rest) w).2).
Proof.
  intros Hb Hf Hnd Hn Hj Hg Hin.
  pose proof (table_after_upsert sheet_id name first rest w b ws Hb Hf Hj Hg) as Ht.
  rewrite (put_block_within _ _ (length (keys first))) in Ht;
    [|apply (sheet_data_rect (first :: rest))|by rewrite sheet_data_length].
  rewrite read_sheet_run. f_equal. unfold table in Ht.
  assert (formats (upsert_sheet sheet_id name (first :: rest) w).2 = formats w
          ∧ numericise (upsert_sheet sheet_id name (first :: rest) w).2
            = numericise w) as [-> ->].
  { by rewrite (upsert_sheet_run _ _ _ _ _ _ _ Hb Hf Hj Hg). }
  destruct (books (upsert_sheet sheet_id name (first :: rest) w).2 !! sheet_id)
    as [b'|]; simpl in Ht; [|done].
  destruct (Gspread.find_sheet b' name) as [s|]; simpl in Ht; [|done].
  injection Ht as ->. by apply (records_sheet_data _ _ (first :: rest)).
Qed.

(** C1, as amended: let a non-empty sequence of records be written to a
    table that exists, the keys of the first record being distinct and
    the last of them not blank, every value a text, a boolean or a
    finite number, the rows lying in the grid of the sheet and the
    previous content inside the written block (a blank table for one).
    Reading the table then gives, in order, one record per written
    record, except for the records at the end of the sequence whose row
    shows nothing; when the last record shows something none is left
    out.  Each record read has exactly the keys of the first written
    record; the value of a key is what gspread reads in the cell for the
    written value, or for the empty text when the record lacks the key:
    the empty text for a blank, for a text what [numericise] makes of
    it (a number when the text reads as one), for [True] what it makes
    of the text ["TRUE"].  A field that the first record does not have
    is omitted from every record read back. *)
Theorem write_then_read sheet_id name first rest w b ws :
  books w !! sheet_id = Some b →
  Gspread.find_sheet b name = Some ws →
  NoDup (keys first) →
  ends_named (keys first) →
  Gspread.json_ok (sheet_data (first :: rest)) = true →
  Gspread.in_grid 1 1 (sheet_data (first :: rest)) ws = true →
  within (cells ws) (S (length (first :: rest))) (length (keys first)) →
  let rows := first :: rest in
  let w' := (upsert_sheet sheet_id name rows w).2 in
  let back := read_back (formats w) (numericise w) (keys first) in
  let kept := without_blank_end (formats w) (keys first) rows in
  read_sheet sheet_id name w' = (Return (back <$> kept), w')
  ∧ (∀ r, last rows = Some r → shows_blank (formats w) (keys first) r = false →
       kept = rows)
  ∧ Forall (λ r, keys r = keys first) (back <$> kept)
  ∧ Forall (λ r, ∀ h, h ∈ keys first →
               dict_get (back r) h
               = Some (shown (formats w) (numericise w) (get r h (VStr ""))))
      rows
  ∧ Forall (λ r, ∀ k, k ∉ keys first → dict_get r k = None) (back <$> kept)
  ∧ shown (formats w) (numericise w) (VStr "") = VStr ""
  ∧ (∀ s, s ≠ "" → shown (formats w) (numericise w) (VStr s) = numericise w s)
  ∧ shown (formats w) (numericise w) (VBool true) = numericise w "TRUE".
Proof.
  intros Hb Hf Hnd Hn Hj Hg Hin. cbv zeta.
  split; [by apply (read_after_upsert _ _ _ _ _ b ws)|].
  split; [intros r; apply without_blank_end_last|].
  split; [|split; [|split; [|split; [|split]]]].
  - apply Forall_fmap, Forall_true. intros r. apply keys_read_back.
  - apply Forall_true. intros r h Hh. rewrite dict_get_read_back.
    by rewrite decide_True.
  - apply Forall_fmap, Forall_true. intros r k Hk. simpl.
    rewrite dict_get_read_back. by rewrite decide_False.
  - done.
  - intros s Hs. unfold shown, Gspread.read_value. simpl.
    by rewrite decide_False.
  - done.
Qed.

Lemma write_then_read_witness :
  NoDup (keys rec_a1)
  ∧ ends_named (keys rec_a1)
  ∧ within [] 3 1
  ∧ read_sheet "sheet-1" "news"
      (upsert_sheet "sheet-1" "news" [rec_a1; rec_a2_b3] (one_table "news" [])).2
    = (Return [[("a", VNum 1)]; [("a", VNum 2)]],
       (upsert_sheet "sheet-1" "news" [rec_a1; rec_a2_b3] (one_table "news" [])).2).
Proof.
  assert (NoDup (keys rec_a1)) as Hnd.
  { apply NoDup_singleton. }
  assert (ends_named (keys rec_a1)) as Hn.
  { by exists "a". }
  assert (within (cells (Worksheet "news" 100 26 [])) 3 1) as Hin.
  { split; [simpl; lia|constructor]. }
  split; [exact Hnd|]. split; [exact Hn|]. split; [exact Hin|].
  exact (proj1 (write_then_read "sheet-1" "news" rec_a1 [rec_a2_b3]
                  (one_table "news" []) [Worksheet "news" 100 26 []]
                  (Worksheet "news" 100 26 []) eq_refl eq_refl Hnd Hn
                  eq_refl eq_refl Hin)).
Defined.

(** C1, as stated, fails: of the records [{a: 1}] and [{a: 2, b: 3}]
    written to a blank table, the second is read back without the field
    [b]; it does not read back as the empty text. *)
Lemma write_then_read_omits_later_field :
  ¬ (∀ i r k, [rec_a1; rec_a2_b3] !! i = Some r → k ∈ keys r → k ∉ keys rec_a1 →
       ∃ back,
         (read_sheet "sheet-1" "news"
            (upsert_sheet "sheet-1" "news" [rec_a1; rec_a2_b3]
               (one_table "news" [])).2).1 = Return back
         ∧ back !! i ≫= (λ r', dict_get r' k) = Some (VStr "")).
Proof.
  intros H.
  destruct (H 1 rec_a2_b3 "b") as (back & Hread & Hget).
  - done.
  - right. left.
  - intros [E|E]%elem_of_cons; [done|by apply elem_of_nil in E].
  - vm_compute in Hread. injection Hread as <-. vm_compute in Hget. discriminate.
Qed.

(** ** [ensure_sheets] *)

Lemma with_sheets_nil sheet_id b w :
  books w !! sheet_id = Some b → with_sheets sheet_id b [] w = w.
Proof.
  intros Hb. destruct w as [bs d wr sc g s]. unfold with_sheets. simpl in *.
  rewrite !app_nil_r. by rewrite insert_id.
Qed.

Lemma for_each_present (ex ns : list string) (body : string → script unit) w :
  (∀ n, n ∈ ns → n ∈ ex) →
  for_each ns (λ n, if decide (n ∈ ex) then ret tt else body n) w = (Return tt, w).
Proof.
  induction ns as [|n ns IH]; intros Hall; [done|].
  simpl. unfold bind. rewrite decide_True by (apply Hall; left).
  simpl. apply IH. intros n' Hn'. apply Hall. by right.
Qed.

Lemma ensure_loop sheet_id (ex ns : list string) b w :
  NoDup ns → books w !! sheet_id = Some b →
  (∀ n, n ∈ ns → n ∉ ex → n ∉ title <$> b) →
  for_each ns (λ n, if decide (n ∈ ex) then ret tt
                    else Gspread.add_worksheet sheet_id n 100 26) w
  = (Return tt, with_sheets sheet_id b (filter (λ n, n ∉ ex) ns) w).
Proof.
  revert b w. induction ns as [|n ns IH]; intros b w Hnd Hb Hfresh.
  - simpl. by rewrite with_sheets_nil.
  - apply NoDup_cons in Hnd as [Hn Hnd]. simpl. unfold bind at 1.
    rewrite filter_cons.
    destruct (decide (n ∈ ex)) as [Hex|Hex];
      destruct (decide (n ∉ ex)) as [Hex'|Hex']; try by destruct Hex'.
    + simpl. apply IH; [done..|]. intros n' Hn'. apply Hfresh. by right.
    + unfold Gspread.add_worksheet at 1. rewrite Hb.
      rewrite decide_False by (apply Hfresh; [left|done]).
      erewrite IH; [| done | simpl; apply lookup_insert_eq |].
      * f_equal. unfold with_sheets. simpl.
        rewrite insert_insert_eq, <- !app_assoc. done.
      * intros n' Hn' Hn'ex. rewrite fmap_app, elem_of_app. simpl.
        intros [H|H%list_elem_of_singleton].
        -- by apply (Hfresh n'); [right|..].
        -- by subst.
Qed.

Lemma NoDup_needed : NoDup needed.
Proof. apply (bool_decide_unpack _). by vm_compute. Qed.

Lemma ensure_sheets_run sheet_id w b :
  books w !! sheet_id = Some b →
  ensure_sheets sheet_id w = (Return tt, with_sheets sheet_id b (missing b) w).
Proof.
  intros Hb. unfold ensure_sheets, bind at 1, Gspread.worksheets. rewrite Hb.
  apply ensure_loop; [apply NoDup_needed|done|by intros].
Qed.

Lemma title_fresh_sheets (ns : list string) : title <$> (fresh_sheet <$> ns) = ns.
Proof.
  rewrite <- list_fmap_compose. rewrite (list_fmap_ext _ id ns) by done.
  apply list_fmap_id.
Qed.

Lemma needed_present b n :
  n ∈ needed → n ∈ title <$> (b ++ (fresh_sheet <$> missing b)).
Proof.
  intros Hn. rewrite fmap_app, title_fresh_sheets, elem_of_app.
  destruct (decide (n ∈ title <$> b)); [by left|right].
  unfold missing. by apply list_elem_of_filter.
Qed.

Lemma ensure_sheets_again sheet_id w b :
  books w !! sheet_id = Some b → (∀ n, n ∈ needed → n ∈ title <$> b) →
  ensure_sheets sheet_id w = (Return tt, w).
Proof.
  intros Hb Hall. unfold ensure_sheets, bind at 1, Gspread.worksheets. rewrite Hb.
  by apply for_each_present.
Qed.

(** C3: on a spreadsheet that can be opened, [ensure_sheets] returns
    after adding, at the end and in order, one blank sheet for each of
    the five names that no existing sheet has, and nothing else: the
    existing sheets stay as they are, each of the five names is then
    present, the added names are distinct and none was there before.  A
    second call in succession changes nothing at all. *)
Theorem ensure_sheets_idempotent sheet_id w b :
  books w !! sheet_id = Some b →
  let w1 := (ensure_sheets sheet_id w).2 in
  needed = ["competitors"; "files"; "financial_runs"; "financial_metrics"; "news"]
  ∧ ensure_sheets sheet_id w = (Return tt, with_sheets sheet_id b (missing b) w)
  ∧ books w1 !! sheet_id = Some (b ++ (fresh_sheet <$> missing b))
  ∧ Forall (λ n, n ∈ title <$> (b ++ (fresh_sheet <$> missing b))) needed
  ∧ NoDup (missing b)
  ∧ Forall (λ n, n ∈ needed ∧ n ∉ title <$> b) (missing b)
  ∧ missing (b ++ (fresh_sheet <$> missing b)) = []
  ∧ ensure_sheets sheet_id w1 = (Return tt, w1).
Proof.
  intros Hb. cbv zeta. rewrite (ensure_sheets_run _ _ _ Hb).
  split; [done|]. split; [done|]. split; [apply lookup_insert_eq|].
  split; [|split; [|split; [|split]]].
  - apply Forall_forall. intros n Hn. by apply needed_present.
  - apply NoDup_filter, NoDup_needed.
  - apply Forall_forall. intros n [Hn1 Hn2]%list_elem_of_filter. done.
  - destruct (missing (b ++ (fresh_sheet <$> missing b))) as [|n l] eqn:E; [done|].
    assert (n ∈ missing (b ++ (fresh_sheet <$> missing b))) as Hn
      by (rewrite E; left).
    apply list_elem_of_filter in Hn as [Hn1 Hn2].
    destruct Hn1. by apply needed_present.
  - eapply ensure_sheets_again; [apply lookup_insert_eq|].
    intros n Hn. by apply needed_present.
Qed.

Lemma ensure_sheets_idempotent_witness :
  (title <$> default [] (books (ensure_sheets "sheet-1" news_only).2 !! "sheet-1")
   = ["news"; "competitors"; "files"; "financial_runs"; "financial_metrics"])
  ∧ ensure_sheets "sheet-1" (ensure_sheets "sheet-1" news_only).2
    = (Return tt, (ensure_sheets "sheet-1" news_only).2).
Proof.
  split; [by vm_compute|].
  exact (proj2 (proj2 (proj2 (proj2 (proj2 (proj2 (proj2
    (ensure_sheets_idempotent "sheet-1" news_only _ eq_refl)))))))).
Defined.

(** ** The competitor identifier *)

Lemma replace_space s :
  replace " " "-" s
  = map_chars (λ c, if Ascii.eqb c " " then "-"%char else c) s.
Proof.
  unfold replace. induction s as [|c s IH]; [done|].
  cbn [replace_from map_chars String.prefix].
  destruct (ascii_dec " " c) as [<-|Hne].
  - simpl. replace (String.prefix "" s) with true by (by destruct s).
    by rewrite IH.
  - rewrite IH. destruct (Ascii.eqb_spec c " ") as [->|]; [by destruct Hne|done].
Qed.

Lemma lower_map s : lower s = map_chars lower_char s.
Proof. induction s as [|c s IH]; simpl; by f_equal. Qed.

Lemma map_chars_compose f g s :
  map_chars f (map_chars g s) = map_chars (λ c, f (g c)) s.
Proof. induction s as [|c s IH]; simpl; by f_equal. Qed.

Lemma map_chars_ext f g s : (∀ c, f c = g c) → map_chars f s = map_chars g s.
Proof. intros E. induction s as [|c s IH]; simpl; by f_equal. Qed.

Lemma id_char_lower c :
  (if Ascii.eqb (lower_char c) " " then "-"%char else lower_char c) = id_char c.
Proof. by destruct c as [[] [] [] [] [] [] [] []]. Qed.

Lemma competitor_id_map name : competitor_id name = map_chars id_char name.
Proof.
  unfold competitor_id. destruct name as [|c s]; [done|].
  rewrite replace_space, lower_map, map_chars_compose.
  apply map_chars_ext, id_char_lower.
Qed.

Lemma map_chars_length f s : String.length (map_chars f s) = String.length s.
Proof. induction s as [|c s IH]; simpl; by f_equal. Qed.

Lemma get_map_chars f s i : String.get i (map_chars f s) = f <$> String.get i s.
Proof.
  revert i. induction s as [|c s IH]; intros i; simpl; [done|].
  destruct i; [done|apply IH].
Qed.

Lemma id_char_codes c :
  id_char c
  = if (nat_of_ascii c =? 32)%nat then "-"%char
    else if (65 <=? nat_of_ascii c)%nat && (nat_of_ascii c <=? 90)%nat
         then ascii_of_nat (nat_of_ascii c + 32)
         else c.
Proof. by destruct c as [[] [] [] [] [] [] [] []]. Qed.

(** C4: the identifier of ["Acme Corp"] is ["acme-corp"] and that of the
    empty name is the empty text.  In general, for a name of ASCII
    characters, the identifier has the length of the name and, place by
    place, a hyphen for a space (code 32), the small letter for a
    capital letter (the code, from 65 to 90, plus 32), and the character
    of the name otherwise. *)
Theorem competitor_id_derivation :
  competitor_id "Acme Corp" = "acme-corp"
  ∧ competitor_id "" = ""
  ∧ ∀ name, is_ascii_text name = true →
      String.length (competitor_id name) = String.length name
      ∧ ∀ i c, String.get i name = Some c →
          String.get i (competitor_id name)
          = Some (if (nat_of_ascii c =? 32)%nat then "-"%char
                  else if (65 <=? nat_of_ascii c)%nat && (nat_of_ascii c <=? 90)%nat
                       then ascii_of_nat (nat_of_ascii c + 32)
                       else c).
Proof.
  split; [done|]. split; [done|]. intros name _.
  rewrite competitor_id_map. split; [apply map_chars_length|].
  intros i c Hc. rewrite get_map_chars, Hc. simpl. f_equal. apply id_char_codes.
Qed.

Lemma competitor_id_derivation_witness :
  is_ascii_text "Acme Corp" = true
  ∧ String.length (competitor_id "Acme Corp") = 9
  ∧ String.get 0 (competitor_id "Acme Corp") = Some "a"%char
  ∧ String.get 4 (competitor_id "Acme Corp") = Some "-"%char.
Proof.
  destruct competitor_id_derivation as (_ & _ & H).
  destruct (H "Acme Corp" eq_refl) as [Hl Hg].
  split; [reflexivity|]. split; [exact Hl|].
  split; [exact (Hg 0 "A"%char eq_refl)|exact (Hg 4 " "%char eq_refl)].
Defined.

(** ** The pages *)


Lemma show_one e w : show e w = shows [e] w.
Proof. done. Qed.

Lemma read_sheet_shows sheet_id name es w :
  read_sheet sheet_id name (shows es w)
  = ((read_sheet sheet_id name w).1, shows es w).
Proof. by rewrite !read_sheet_run. Qed.



(** C6, as amended: when the credential payload is absent (or empty) and
    no client is cached yet, [main] stops the run at the point where it
    first needs a client.  By then the sidebar title, the local time,
    the timezone line and the navigation choice are rendered; nothing
    else is: no page, neither of the two closing sidebar lines.  The
    store is not touched and no client is cached. *)
Theorem main_stops_without_credential ss w :
  google_service_account_json (st_secrets ss) = None
  ∨ google_service_account_json (st_secrets ss) = Some "" →
  gspread_client w = None →
  main ss w
  = (Stopped,
     shows [ sidebar_title "Competitor Intelligence";
             sidebar_caption ("Local time: " +:+ local_time ss);
             sidebar_write ("Timezone: "
                            +:+ default "Europe/Berlin"
                                  (general_timezone (st_secrets ss)));
             sidebar_radio "Navigate" pages ] w).
Proof.
  intros Hsa Hgc. unfold main, bind, render, get_gspread_client. simpl.
  rewrite Hgc. unfold bind, get_sa_creds.
  destruct Hsa as [-> | ->]; simpl; unfold show, shows; simpl;
    by rewrite <- !app_assoc.
Qed.

Lemma main_stops_without_credential_witness :
  google_service_account_json (st_secrets no_credential) = None
  ∧ gspread_client news_only = None
  ∧ (main no_credential news_only).1 = Stopped
  ∧ books (main no_credential news_only).2 = books news_only
  ∧ writes (main no_credential news_only).2 = [].
Proof.
  pose proof (main_stops_without_credential no_credential news_only
                (or_introl eq_refl) eq_refl) as H.
  split; [done|]. split; [done|]. by rewrite H.
Defined.

(** C6, as stated, fails: in a run without the credential payload the
    run stops, but four sidebar elements are on the screen by then. *)
Lemma main_renders_sidebar_before_stopping :
  google_service_account_json (st_secrets no_credential) = None
  ∧ (main no_credential news_only).1 = Stopped
  ∧ screen news_only = []
  ∧ screen (main no_credential news_only).2
    = [ sidebar_title "Competitor Intelligence";
        sidebar_caption "Local time: 2026-01-01 10:00";
        sidebar_write "Timezone: Europe/Berlin";
        sidebar_radio "Navigate" ["Competitors"; "Library"; "Automations"; "Reports"] ]
  ∧ screen (main no_credential news_only).2 ≠ screen news_only.
Proof. vm_compute. by repeat split. Qed.

(** C8: for a configured folder whose listing has no entry (an empty
    ["files"] list, or none at all), the query gives the empty sequence
    without raising, and the Library page returns normally after its
    header and the empty-library message. *)
Theorem page_library_no_children folder w :
  folder ≠ "" →
  drive w ("'" +:+ folder +:+ "' in parents and trashed=false") = Response None
  ∨ drive w ("'" +:+ folder +:+ "' in parents and trashed=false")
    = Response (Some []) →
  list_children folder w = (Return [], w)
  ∧ page_library folder w
    = (Return tt,
       shows [ header "Library (Google Drive)";
               write "No items yet. Create a subfolder per competitor and drop files there." ]
         w).
Proof.
  intros Hne Hq.
  assert (∀ w', drive w' = drive w → list_children folder w' = (Return [], w'))
    as Hlist.
  { intros w' Hw'. unfold list_children. rewrite Hw'.
    by destruct Hq as [-> | ->]. }
  split; [by apply Hlist|].
  unfold page_library, bind at 1, render at 1.
  destruct folder as [|c s]; [done|].
  unfold bind at 1. rewrite Hlist by done.
  unfold bind, render, for_each, ret, show, shows. simpl.
  by rewrite <- !app_assoc.
Qed.

Lemma page_library_no_children_witness :
  "folder-1" ≠ ""
  ∧ list_children "folder-1" news_only = (Return [], news_only)
  ∧ (page_library "folder-1" news_only).1 = Return tt.
Proof.
  destruct (page_library_no_children "folder-1" news_only
              ltac:(done) (or_introl eq_refl)) as [Hl Hp].
  split; [done|]. split; [exact Hl|]. by rewrite Hp.
Defined.

(** ** Frames *)








Lemma bind_return {A B} (c : script A) (k : A → script B) w a w' :
  c w = (Return a, w') → bind c k w = k a w'.
Proof. intros H. unfold bind. by rewrite H. Qed.

Lemma bind_render {B} e (k : unit → script B) w :
  bind (render e) k w = k tt (show e w).
Proof. done. Qed.

Lemma find_sheet_present b n :
  n ∈ title <$> b → ∃ s, Gspread.find_sheet b n = Some s.
Proof.
  induction b as [|s b IH]; simpl; intros Hn.
  - by apply elem_of_nil in Hn.
  - destruct (decide (title s = n)); [by eexists|].
    apply IH. by apply elem_of_cons in Hn as [->|].
Qed.

(** The Competitors page on a spreadsheet that opens, up to the
    submission: the missing sheets are added, the table is read, and the
    page goes on only when the read returns. *)
Lemma page_competitors_run f sheet_id w b :
  books w !! sheet_id = Some b →
  ∃ s, Gspread.find_sheet (b ++ (fresh_sheet <$> missing b)) "competitors" = Some s
       ∧ (read_sheet sheet_id "competitors" (ensure_sheets sheet_id w).2).1
         = Gspread.records (formats w) (numericise w) (cells s)
       ∧ page_competitors f sheet_id w
         = match Gspread.records (formats w) (numericise w) (cells s) with
           | Return rows =>
               (if submitted f
                then bind (upsert_sheet sheet_id "competitors"
                             (submitted_records rows f))
                          (λ _, render (success "Saved!"))
                else ret tt)
                 (shows (competitors_view rows)
                    (with_sheets sheet_id b (missing b)
                       (show (header "Competitors") w)))
           | Raise e =>
               (Raise e,
                with_sheets sheet_id b (missing b) (show (header "Competitors") w))
           | Stopped =>
               (Stopped,
                with_sheets sheet_id b (missing b) (show (header "Competitors") w))
           end.
Proof.
  intros Hb.
  destruct (find_sheet_present (b ++ (fresh_sheet <$> missing b)) "competitors")
    as [s Hs].
  { apply needed_present. left. }
  exists s. split; [done|]. split.
  { rewrite (ensure_sheets_run _ _ _ Hb), read_sheet_run. cbn [fst snd].
    unfold with_sheets at 1. cbn [books]. rewrite lookup_insert_eq.
    by rewrite Hs. }
  unfold page_competitors. rewrite bind_render.
  rewrite (bind_return _ _ _ sheet_id (show (header "Competitors") w)).
  2:{ unfold Gspread.open_by_key. simpl. by rewrite Hb. }
  cbv beta.
  rewrite (bind_return _ _ _ tt _
             (ensure_sheets_run sheet_id (show (header "Competitors") w) b Hb)).
  set (w1 := with_sheets sheet_id b (missing b) (show (header "Competitors") w)).
  assert (read_sheet sheet_id "competitors" w1
          = (Gspread.records (formats w) (numericise w) (cells s), w1)) as Hread.
  { rewrite read_sheet_run. unfold w1 at 1, with_sheets at 1. cbn [books].
    rewrite lookup_insert_eq. by rewrite Hs. }
  destruct (Gspread.records (formats w) (numericise w) (cells s)) as [rows|e|].
  - rewrite (bind_return _ _ _ rows w1 Hread).
    cbv beta zeta. rewrite !bind_render. f_equal.
    unfold show, shows, competitors_view.
    cbn [books drive writes screen gspread_client drive_service formats numericise].
    by rewrite <- !app_assoc.
  - unfold bind at 1. by rewrite Hread.
  - unfold bind at 1. by rewrite Hread.
Qed.




(** ** Further properties of the spreadsheet gateway *)

(** X1: [read_sheet] only reads: the world after the call is the world
    before it.  It raises [SpreadsheetNotFound] exactly when the
    spreadsheet cannot be opened, and [WorksheetNotFound] exactly when
    the spreadsheet opens and has no sheet of that title. *)
Theorem read_sheet_reads_only sheet_id name w :
  (read_sheet sheet_id name w).2 = w
  ∧ ((read_sheet sheet_id name w).1 = Raise (SpreadsheetNotFound sheet_id)
     ↔ books w !! sheet_id = None)
  ∧ ((read_sheet sheet_id name w).1 = Raise (WorksheetNotFound name)
     ↔ ∃ b, books w !! sheet_id = Some b ∧ Gspread.find_sheet b name = None).
Proof.
  rewrite read_sheet_run. split; [done|]. simpl.
  destruct (books w !! sheet_id) as [b|].
  - destruct (Gspread.find_sheet b name) as [s|] eqn:Hf.
    + destruct (records_outcome (formats w) (numericise w) (cells s))
        as [[rows ->] | ->].
      * split; [done|]. split; [done|]. intros (b' & [= <-] & Hb'). congruence.
      * split; [done|]. split; [done|]. intros (b' & [= <-] & Hb'). congruence.
    + split; [done|]. split; [by exists b|done].
  - split; [done|]. split; [done|]. by intros (b & ? & _).
Qed.

(** X2: when the spreadsheet opens and has no sheet of the given title,
    [upsert_sheet] raises [WorksheetNotFound] for every sequence of
    records, empty or not, and writes nothing. *)
Theorem upsert_sheet_missing_table sheet_id name rows w b :
  books w !! sheet_id = Some b →
  Gspread.find_sheet b name = None →
  upsert_sheet sheet_id name rows w = (Raise (WorksheetNotFound name), w).
Proof.
  intros Hb Hf.
  unfold upsert_sheet, bind, Gspread.open_by_key, Gspread.worksheet_.
  rewrite Hb. simpl. rewrite Hb. simpl. by rewrite Hf.
Qed.

Lemma upsert_sheet_missing_table_witness :
  books (one_table "news" []) !! "sheet-1" = Some [Worksheet "news" 100 26 []]
  ∧ Gspread.find_sheet [Worksheet "news" 100 26 []] "files" = None
  ∧ upsert_sheet "sheet-1" "files" [rec_a1] (one_table "news" [])
    = (Raise (WorksheetNotFound "files"), one_table "news" []).
Proof.
  split; [reflexivity|]. split; [reflexivity|].
  exact (upsert_sheet_missing_table "sheet-1" "files" [rec_a1]
           (one_table "news" []) _ eq_refl eq_refl).
Defined.


Lemma find_sheet_app_r b b' n :
  n ∉ title <$> b → Gspread.find_sheet (b ++ b') n = Gspread.find_sheet b' n.
Proof.
  induction b as [|s0 b IH]; simpl; [done|].
  intros [Hne Hn]%not_elem_of_cons. rewrite decide_False by done. auto.
Qed.

Lemma find_fresh_sheet ns n :
  n ∈ ns → Gspread.find_sheet (fresh_sheet <$> ns) n = Some (fresh_sheet n).
Proof.
  induction ns as [|n0 ns IH]; intros Hn.
  - by apply elem_of_nil in Hn.
  - rewrite fmap_cons. simpl. destruct (decide (n0 = n)) as [->|Hne]; [done|].
    apply IH. by apply elem_of_cons in Hn as [->|].
Qed.

(** X3: after [ensure_sheets] each of the five required tables is
    there: reading one gives the records of its sheet and raises neither
    [WorksheetNotFound] nor [SpreadsheetNotFound] (the read can still
    raise for a header row that repeats a name); a table that
    [ensure_sheets] had to create reads as the empty sequence. *)
Theorem read_sheet_after_ensure_sheets sheet_id n w b :
  books w !! sheet_id = Some b →
  n ∈ needed →
  let w1 := (ensure_sheets sheet_id w).2 in
  (∃ s, Gspread.find_sheet (b ++ (fresh_sheet <$> missing b)) n = Some s
        ∧ read_sheet sheet_id n w1
          = (Gspread.records (formats w) (numericise w) (cells s), w1))
  ∧ (read_sheet sheet_id n w1).1 ≠ Raise (WorksheetNotFound n)
  ∧ (read_sheet sheet_id n w1).1 ≠ Raise (SpreadsheetNotFound sheet_id)
  ∧ (n ∉ title <$> b → read_sheet sheet_id n w1 = (Return [], w1)).
Proof.
  intros Hb Hn. cbv zeta. rewrite (ensure_sheets_run _ _ _ Hb). cbn [snd].
  set (w1 := with_sheets sheet_id b (missing b) w).
  destruct (find_sheet_present (b ++ (fresh_sheet <$> missing b)) n) as [s Hs].
  { by apply needed_present. }
  assert (read_sheet sheet_id n w1
          = (Gspread.records (formats w) (numericise w) (cells s), w1)) as Hr.
  { rewrite read_sheet_run. unfold w1 at 1, with_sheets at 1. cbn [books].
    rewrite lookup_insert_eq. by rewrite Hs. }
  rewrite Hr. cbn [fst]. split; [by exists s|].
  assert (n ∉ title <$> b → s = fresh_sheet n) as Hfresh.
  { intros Hnin. rewrite find_sheet_app_r in Hs by done.
    rewrite find_fresh_sheet in Hs by (by apply list_elem_of_filter).
    by injection Hs as <-. }
  destruct (records_outcome (formats w) (numericise w) (cells s))
    as [[rows Hrows] | Hrows]; rewrite Hrows.
  - split; [done|]. split; [done|]. intros Hnin.
    rewrite (Hfresh Hnin) in Hrows. by rewrite <- Hrows.
  - split; [done|]. split; [done|]. intros Hnin.
    by rewrite (Hfresh Hnin) in Hrows.
Qed.

Lemma read_sheet_after_ensure_sheets_witness :
  books news_only !! "sheet-1"
  = Some [Worksheet "news" 100 26 [[VStr "headline"]; [VStr "Acme buys Apex"]]]
  ∧ "files" ∈ needed
  ∧ (read_sheet "sheet-1" "files" (ensure_sheets "sheet-1" news_only).2).1
    = Return [].
Proof.
  assert ("files" ∈ needed) as Hn by (right; left).
  split; [reflexivity|]. split; [exact Hn|].
  destruct (read_sheet_after_ensure_sheets "sheet-1" "files" news_only _
              eq_refl Hn) as (_ & _ & _ & Hr).
  rewrite Hr; [done|].
  apply (bool_decide_unpack _). by vm_compute.
Defined.

Lemma overlay_cells_twice r o :
  Gspread.overlay Gspread.put_cell blank r
    (Gspread.overlay Gspread.put_cell blank r o)
  = Gspread.overlay Gspread.put_cell blank r o.
Proof.
  apply list_eq. intros j. rewrite !overlay_lookup.
  by destruct (r !! j).
Qed.

Lemma put_block_twice data old :
  Gspread.put_block 1 1 data (Gspread.put_block 1 1 data old)
  = Gspread.put_block 1 1 data old.
Proof.
  apply list_eq. intros i. rewrite !put_block_lookup.
  destruct (data !! i) as [r|]; [|done]. simpl.
  by rewrite overlay_cells_twice.
Qed.

Lemma replace_sheet_twice b n f g :
  (∀ s, title (f s) = title s) →
  Gspread.replace_sheet (Gspread.replace_sheet b n f) n g
  = Gspread.replace_sheet b n (g ∘ f).
Proof.
  intros Hf. induction b as [|s b IH]; simpl; [done|].
  destruct (decide (title s = n)) as [Hs|Hs]; simpl.
  - by rewrite Hf, decide_True.
  - rewrite decide_False by done. by rewrite IH.
Qed.

Lemma replace_sheet_ext b n f g :
  (∀ s, f s = g s) → Gspread.replace_sheet b n f = Gspread.replace_sheet b n g.
Proof.
  intros Hfg. induction b as [|s b IH]; simpl; [done|].
  destruct (decide (title s = n)); by rewrite ?Hfg, ?IH.
Qed.

(** X4: writing the same records to a table a second time changes
    nothing in the store.  When the first call is accepted (every value
    can be sent and the rows lie in the grid of the sheet) the second
    call returns too, the spreadsheets are those left by the first call,
    and only the request log grows by the repeated update. *)
Theorem upsert_sheet_twice sheet_id name first rest w b ws :
  books w !! sheet_id = Some b →
  Gspread.find_sheet b name = Some ws →
  Gspread.json_ok (sheet_data (first :: rest)) = true →
  Gspread.in_grid 1 1 (sheet_data (first :: rest)) ws = true →
  (upsert_sheet sheet_id name (first :: rest) w).1 = Return tt
  ∧ (upsert_sheet sheet_id name (first :: rest)
       (upsert_sheet sheet_id name (first :: rest) w).2).1 = Return tt
  ∧ books (upsert_sheet sheet_id name (first :: rest)
             (upsert_sheet sheet_id name (first :: rest) w).2).2
    = books (upsert_sheet sheet_id name (first :: rest) w).2
  ∧ writes (upsert_sheet sheet_id name (first :: rest)
              (upsert_sheet sheet_id name (first :: rest) w).2).2
    = writes (upsert_sheet sheet_id name (first :: rest) w).2
      ++ [ValuesUpdate sheet_id name "A1" (sheet_data (first :: rest))].
Proof.
  intros Hb Hf Hj Hg. rewrite (upsert_sheet_run _ _ _ _ _ _ _ Hb Hf Hj Hg).
  split; [done|].
  set (data := sheet_data (first :: rest)) in *.
  set (g := Gspread.put_block 1 1 data (cells ws)).
  set (b1 := Gspread.replace_sheet b name (Gspread.set_cells g)).
  cbn [snd].
  erewrite (upsert_sheet_run sheet_id name first rest _ b1 (Gspread.set_cells g ws)).
  2:{ simpl. apply lookup_insert_eq. }
  2:{ by apply find_replace_sheet. }
  2:{ exact Hj. }
  2:{ exact Hg. }
  split; [done|]. split; [|done]. unfold log, set_books. cbn [books snd].
  rewrite insert_insert_eq. f_equal. subst b1. rewrite replace_sheet_twice by done.
  apply replace_sheet_ext. intros s. unfold compose, Gspread.set_cells.
  cbn [cells title row_count col_count]. f_equal. apply put_block_twice.
Qed.

Lemma upsert_sheet_twice_witness :
  books (one_table "news" two_rows) !! "sheet-1"
  = Some [Worksheet "news" 100 26 two_rows]
  ∧ Gspread.find_sheet [Worksheet "news" 100 26 two_rows] "news"
    = Some (Worksheet "news" 100 26 two_rows)
  ∧ table (upsert_sheet "sheet-1" "news" [rec_a9]
             (upsert_sheet "sheet-1" "news" [rec_a9]
                (one_table "news" two_rows)).2).2 "sheet-1" "news"
    = Some [[VStr "a"]; [VStr "9"]; [VStr "2"]].
Proof.
  split; [reflexivity|]. split; [reflexivity|].
  destruct (upsert_sheet_twice "sheet-1" "news" rec_a9 [] (one_table "news" two_rows)
              _ _ eq_refl eq_refl eq_refl eq_refl) as (_ & _ & Hbooks & _).
  unfold table. rewrite Hbooks. by vm_compute.
Defined.

Lemma title_replace_sheet b n f :
  (∀ s, title (f s) = title s) →
  title <$> Gspread.replace_sheet b n f = title <$> b.
Proof.
  intros Hf. induction b as [|s b IH]; [done|]. simpl.
  destruct (decide (title s = n)); rewrite !fmap_cons; [by rewrite Hf|].
  by rewrite IH.
Qed.

(** X5: [upsert_sheet] never adds, removes, renames or reorders a sheet:
    for every spreadsheet of the store, the titles of its sheets are the
    same after the call as before, whatever the records and whatever the
    outcome. *)
Theorem upsert_sheet_keeps_titles sheet_id name rows w key :
  titles (upsert_sheet sheet_id name rows w).2 key = titles w key.
Proof.
  destruct (books w !! sheet_id) as [b|] eqn:Hb.
  - destruct (Gspread.find_sheet b name) as [ws|] eqn:Hf.
    + destruct rows as [|first rest].
      * unfold upsert_sheet, bind, Gspread.open_by_key, Gspread.worksheet_.
        rewrite Hb. simpl. rewrite Hb. simpl. by rewrite Hf.
      * rewrite (upsert_sheet_update _ _ _ _ _ _ _ Hb Hf),
          (update_run _ _ _ _ _ _ Hb Hf).
        destruct (Gspread.json_ok _); [|done].
        destruct (Gspread.in_grid _ _ _ _); [|done].
        unfold titles. simpl.
        destruct (decide (sheet_id = key)) as [<-|Hne].
        -- rewrite lookup_insert_eq, Hb. by rewrite title_replace_sheet.
        -- by rewrite lookup_insert_ne.
    + unfold upsert_sheet, bind, Gspread.open_by_key, Gspread.worksheet_.
      rewrite Hb. simpl. rewrite Hb. simpl. by rewrite Hf.
  - unfold upsert_sheet, bind, Gspread.open_by_key. by rewrite Hb.
Qed.

(** ** What a computation keeps *)

Section Keeps.
Context (R : world → world → Prop) `{!Reflexive R} `{!Transitive R}.
Context (R_show : ∀ e w, R w (show e w)).

Lemma keeps_ret {A} (a : A) : keeps R (ret a).
Proof. intros w. simpl. reflexivity. Qed.

Lemma keeps_render e : keeps R (render e).
Proof. intros w. apply R_show. Qed.

Lemma keeps_bind {A B} (c : script A) (k : A → script B) :
  keeps R c → (∀ a, keeps R (k a)) → keeps R (bind c k).
Proof.
  intros Hc Hk w. unfold bind. specialize (Hc w).
  destruct (c w) as [[a|e|] w']; simpl in *; [|done..].
  etransitivity; [exact Hc|apply Hk].
Qed.

Lemma keeps_try_except {A} (c h : script A) :
  keeps R c → keeps R h → keeps R (try_except c h).
Proof.
  intros Hc Hh w. unfold try_except. specialize (Hc w).
  destruct (c w) as [[a|e|] w']; simpl in *; [done| |done].
  etransitivity; [exact Hc|apply Hh].
Qed.

Lemma keeps_for_each {A} (xs : list A) (body : A → script unit) :
  (∀ x, keeps R (body x)) → keeps R (for_each xs body).
Proof.
  intros Hbody. induction xs as [|x xs IH]; simpl.
  - apply keeps_ret.
  - apply keeps_bind; [apply Hbody|done].
Qed.

Lemma keeps_unchanged {A} (c : script A) : (∀ w, (c w).2 = w) → keeps R c.
Proof. intros Hc w. rewrite Hc. reflexivity. Qed.

End Keeps.

Global Instance same_store_refl : Reflexive same_store.
Proof. by intros w. Qed.

Global Instance same_store_trans : Transitive same_store.
Proof.
  intros w1 w2 w3 (H1 & H2 & H3) (H4 & H5 & H6). unfold same_store.
  by rewrite H4, H5, H6.
Qed.

Global Instance same_clients_refl : Reflexive same_clients.
Proof. by intros w. Qed.

Global Instance same_clients_trans : Transitive same_clients.
Proof.
  intros w1 w2 w3 (H1 & H2) (H3 & H4). unfold same_clients. by rewrite H3, H4.
Qed.

Lemma same_store_show e w : same_store w (show e w).
Proof. done. Qed.

Lemma same_clients_show e w : same_clients w (show e w).
Proof. done. Qed.

Lemma list_children_unchanged folder w : (list_children folder w).2 = w.
Proof. unfold list_children. by destruct (drive w _). Qed.

Lemma read_sheet_unchanged sheet_id name w : (read_sheet sheet_id name w).2 = w.
Proof. by rewrite read_sheet_run. Qed.

Lemma get_sa_creds_unchanged ss w : (get_sa_creds ss w).2 = w.
Proof.
  unfold get_sa_creds.
  destruct (google_service_account_json (st_secrets ss)) as [[|c s]|]; try done.
  by destruct (service_account_info_ok ss (String c s)).
Qed.

Lemma get_gspread_client_store ss : keeps same_store (get_gspread_client ss).
Proof.
  intros w. unfold get_gspread_client.
  destruct (gspread_client w); [done|]. unfold bind.
  pose proof (get_sa_creds_unchanged ss w) as H.
  destruct (get_sa_creds ss w) as [[a|e|] w']; simpl in *; by subst.
Qed.

Lemma get_drive_service_store ss : keeps same_store (get_drive_service ss).
Proof.
  intros w. unfold get_drive_service.
  destruct (drive_service w); [done|]. unfold bind.
  pose proof (get_sa_creds_unchanged ss w) as H.
  destruct (get_sa_creds ss w) as [[a|e|] w']; simpl in *; by subst.
Qed.

Lemma read_sheet_not_stopped sheet_id name w :
  (read_sheet sheet_id name w).1 ≠ Stopped.
Proof.
  rewrite read_sheet_run. simpl.
  destruct (books w !! sheet_id) as [b|]; [|done].
  destruct (Gspread.find_sheet b name) as [s|]; [|done].
  by destruct (records_outcome (formats w) (numericise w) (cells s))
    as [[rows ->] | ->].
Qed.

Lemma page_reports_run sheet_id w :
  page_reports sheet_id w
  = (Return tt,
     shows [ header "Reports";
             subheader "Financial metrics";
             dataframe (shown_frame (read_sheet sheet_id "financial_metrics" w).1);
             subheader "News";
             dataframe (shown_frame (read_sheet sheet_id "news" w).1) ] w).
Proof.
  pose proof (read_sheet_not_stopped sheet_id "financial_metrics" w) as Hfm.
  pose proof (read_sheet_not_stopped sheet_id "news" w) as Hnews.
  unfold page_reports, bind, try_except, render, ret.
  rewrite show_one, !read_sheet_shows.
  destruct (read_sheet sheet_id "financial_metrics" w).1 as [fm|e|];
    [| |done]; cbn [fst snd]; rewrite !read_sheet_shows;
    (destruct (read_sheet sheet_id "news" w).1 as [news|e'|]; [| |done]);
    cbn [fst snd shown_frame]; unfold show, shows;
    cbn [books drive writes screen gspread_client drive_service formats
         numericise];
    by rewrite <- !app_assoc.
Qed.

(** ** Further properties of the pages *)

(** X6: the Reports page returns normally in every world, whether the
    tables can be read or not; it sends nothing to the store, changes no
    spreadsheet, and adds exactly five elements to the screen. *)
Theorem page_reports_always_returns sheet_id w :
  (page_reports sheet_id w).1 = Return tt
  ∧ same_store w (page_reports sheet_id w).2
  ∧ length (screen (page_reports sheet_id w).2) = length (screen w) + 5.
Proof.
  rewrite page_reports_run. split; [done|]. split; [done|].
  simpl. rewrite length_app. done.
Qed.

(** X7: on the Reports page a table that cannot be read and a table that
    reads as the empty sequence give the same screen: when the two
    worlds agree on the news read and on what was rendered before, the
    page renders the same elements in both. *)
Theorem page_reports_failure_looks_empty sheet_id w w' e :
  screen w' = screen w →
  (read_sheet sheet_id "financial_metrics" w).1 = Raise e →
  (read_sheet sheet_id "financial_metrics" w').1 = Return [] →
  (read_sheet sheet_id "news" w').1 = (read_sheet sheet_id "news" w).1 →
  screen (page_reports sheet_id w').2 = screen (page_reports sheet_id w).2.
Proof.
  intros Hs Hfm Hfm' Hn. rewrite !page_reports_run. simpl.
  by rewrite Hs, Hfm, Hfm', Hn.
Qed.

Lemma page_reports_failure_looks_empty_witness :
  (read_sheet "sheet-1" "financial_metrics" missing_metrics).1
  = Raise (WorksheetNotFound "financial_metrics")
  ∧ (read_sheet "sheet-1" "financial_metrics" empty_metrics).1 = Return []
  ∧ screen (page_reports "sheet-1" empty_metrics).2
    = screen (page_reports "sheet-1" missing_metrics).2.
Proof.
  split; [reflexivity|]. split; [reflexivity|].
  exact (page_reports_failure_looks_empty "sheet-1" missing_metrics empty_metrics
           (WorksheetNotFound "financial_metrics") eq_refl eq_refl eq_refl eq_refl).
Defined.

Lemma shows_nil w : shows [] w = w.
Proof. destruct w. unfold shows. simpl. by rewrite app_nil_r. Qed.

Lemma shows_shows es es' w : shows es' (shows es w) = shows (es ++ es') w.
Proof. unfold shows. simpl. by rewrite app_assoc. Qed.

Lemma for_each_render {A} (g : A → element) (xs : list A) w :
  for_each xs (λ x, render (g x)) w = (Return tt, shows (g <$> xs) w).
Proof.
  revert w. induction xs as [|x xs IH]; intros w; simpl.
  - by rewrite shows_nil.
  - rewrite bind_render, IH, show_one, shows_shows. done.
Qed.

(** X8: for a configured folder whose listing has entries, the Library
    page returns after its header and one line per entry, in the order
    of the listing; the empty-library message is not shown. *)
Theorem page_library_lists_children folder w it items :
  folder ≠ "" →
  drive w (children_query folder) = Response (Some (it :: items)) →
  page_library folder w
  = (Return tt,
     shows (header "Library (Google Drive)"
            :: ((λ f, write (file_line f)) <$> it :: items)) w).
Proof.
  intros Hne Hq. unfold page_library. rewrite bind_render.
  destruct folder as [|c s]; [done|].
  rewrite (bind_return _ _ _ (it :: items) (show (header "Library (Google Drive)") w)).
  2:{ unfold list_children. fold (children_query (String c s)). simpl.
      by rewrite Hq. }
  cbv beta iota. rewrite (bind_return _ _ _ tt _ eq_refl).
  rewrite for_each_render, show_one, shows_shows. done.
Qed.

Lemma page_library_lists_children_witness :
  "folder-1" ≠ ""
  ∧ screen (page_library "folder-1" library_world).2
    = [ header "Library (Google Drive)";
        write "- [Q3 report.pdf](https://drive.example/f1) — application/pdf";
        write "- [notes](None) — application/vnd.google-apps.folder" ].
Proof.
  assert ("folder-1" ≠ "") as Hne by done.
  split; [exact Hne|].
  rewrite (page_library_lists_children "folder-1" library_world _ _ Hne eq_refl).
  reflexivity.
Defined.

(** X9: when the Drive query fails, the Library page raises the failure
    after its header: no entry and no message is rendered and the
    failure is not caught. *)
Theorem page_library_propagates_failure folder w e :
  folder ≠ "" →
  drive w (children_query folder) = Failure e →
  page_library folder w = (Raise e, show (header "Library (Google Drive)") w).
Proof.
  intros Hne Hq. unfold page_library. rewrite bind_render.
  destruct folder as [|c s]; [done|].
  unfold bind, list_children. fold (children_query (String c s)). simpl.
  by rewrite Hq.
Qed.

Lemma page_library_propagates_failure_witness :
  "folder-1" ≠ ""
  ∧ page_library "folder-1" drive_down
    = (Raise (HttpError "backend error"),
       show (header "Library (Google Drive)") drive_down).
Proof.
  assert ("folder-1" ≠ "") as Hne by done.
  split; [exact Hne|].
  exact (page_library_propagates_failure "folder-1" drive_down _ Hne eq_refl).
Defined.

(** ** Further properties of the Competitors page *)

(** X10: without a submission the Competitors page, on a spreadsheet
    that opens, sends only the additions of the missing required sheets:
    the sheets that existed stay first and unchanged and no cell of any
    table is written.  The page returns when the read of [competitors]
    returns; the read is outside any handler, and what it raises the
    page raises, before the table and the form are rendered. *)
Theorem page_competitors_without_submission f sheet_id w b :
  books w !! sheet_id = Some b →
  submitted f = false →
  writes (page_competitors f sheet_id w).2
  = writes w ++ ((λ n, AddSheet sheet_id n 100 26) <$> missing b)
  ∧ books (page_competitors f sheet_id w).2
    = <[sheet_id := b ++ (fresh_sheet <$> missing b)]> (books w)
  ∧ (∀ rows,
       (read_sheet sheet_id "competitors" (ensure_sheets sheet_id w).2).1
       = Return rows →
       page_competitors f sheet_id w
       = (Return tt,
          shows (competitors_view rows)
            (with_sheets sheet_id b (missing b) (show (header "Competitors") w))))
  ∧ (∀ e,
       (read_sheet sheet_id "competitors" (ensure_sheets sheet_id w).2).1
       = Raise e →
       page_competitors f sheet_id w
       = (Raise e,
          with_sheets sheet_id b (missing b) (show (header "Competitors") w))).
Proof.
  intros Hb Hsub.
  destruct (page_competitors_run f sheet_id w b Hb) as (s & _ & -> & ->).
  rewrite Hsub.
  destruct (Gspread.records (formats w) (numericise w) (cells s)) as [rows|e|].
  - split; [done|]. split; [done|]. split; [by intros ? [= <-]|done].
  - split; [done|]. split; [done|]. split; [done|by intros ? [= <-]].
  - done.
Qed.

Lemma page_competitors_without_submission_witness :
  books news_only !! "sheet-1"
  = Some [Worksheet "news" 100 26 [[VStr "headline"]; [VStr "Acme buys Apex"]]]
  ∧ (page_competitors (CompForm "" "" "" "" "" "" "" "" "" "" false)
       "sheet-1" news_only).1 = Return tt
  ∧ writes (page_competitors (CompForm "" "" "" "" "" "" "" "" "" "" false)
              "sheet-1" news_only).2
    = [ AddSheet "sheet-1" "competitors" 100 26; AddSheet "sheet-1" "files" 100 26;
        AddSheet "sheet-1" "financial_runs" 100 26;
        AddSheet "sheet-1" "financial_metrics" 100 26 ].
Proof.
  split; [reflexivity|].
  destruct (page_competitors_without_submission
              (CompForm "" "" "" "" "" "" "" "" "" "" false) "sheet-1" news_only _
              eq_refl eq_refl) as (Hw & _ & Hr & _).
  split; [by rewrite (Hr [] eq_refl)|].
  rewrite Hw. by vm_compute.
Defined.

Lemma page_competitors_raises f sheet_id w :
  books w !! sheet_id = None →
  page_competitors f sheet_id w
  = (Raise (SpreadsheetNotFound sheet_id), show (header "Competitors") w).
Proof.
  intros Hb. unfold page_competitors. rewrite bind_render.
  unfold bind, Gspread.open_by_key. simpl. by rewrite Hb.
Qed.

(** X11: when the spreadsheet cannot be opened, the Competitors page
    raises [SpreadsheetNotFound] right after its header: no table is
    created, nothing is written, and no form is rendered. *)
Theorem page_competitors_unknown_spreadsheet f sheet_id w :
  books w !! sheet_id = None →
  page_competitors f sheet_id w
  = (Raise (SpreadsheetNotFound sheet_id), show (header "Competitors") w).
Proof. apply page_competitors_raises. Qed.

Lemma page_competitors_unknown_spreadsheet_witness :
  books news_only !! "other" = None
  ∧ page_competitors acme_form "other" news_only
    = (Raise (SpreadsheetNotFound "other"), show (header "Competitors") news_only).
Proof.
  split; [reflexivity|].
  exact (page_competitors_unknown_spreadsheet acme_form "other" news_only eq_refl).
Defined.



















(** ** Further properties of the competitor identifier *)

Lemma id_char_plain c :
  negb (is_upper (id_char c)) && negb (Ascii.eqb (id_char c) " ") = true.
Proof. by destruct c as [[] [] [] [] [] [] [] []]. Qed.

Lemma id_char_twice c : id_char (id_char c) = id_char c.
Proof. by destruct c as [[] [] [] [] [] [] [] []]. Qed.

Lemma id_char_of_lower c : id_char (lower_char c) = id_char c.
Proof. by destruct c as [[] [] [] [] [] [] [] []]. Qed.

Lemma id_char_of_hyphen c :
  id_char (if Ascii.eqb c " " then "-"%char else c) = id_char c.
Proof. by destruct c as [[] [] [] [] [] [] [] []]. Qed.

Lemma all_chars_map_impl (p q : ascii → bool) f s :
  (∀ c, p c = true → q (f c) = true) →
  all_chars p s = true → all_chars q (map_chars f s) = true.
Proof.
  intros Hpq. induction s as [|c s IH]; simpl; [done|].
  intros [Hc Hs]%andb_prop. by rewrite (Hpq c Hc), IH.
Qed.

Lemma id_char_ascii c :
  bool_decide (nat_of_ascii c < 128) = true →
  bool_decide (nat_of_ascii (id_char c) < 128) = true.
Proof.
  destruct c as [[] [] [] [] [] [] [] []]; intros H; vm_compute in H |- *;
    congruence.
Qed.

Lemma id_char_code c :
  nat_of_ascii (id_char c) ≠ 32
  ∧ ¬ (65 ≤ nat_of_ascii (id_char c) ≤ 90).
Proof.
  pose proof (id_char_plain c) as [Hup Hsp]%andb_prop. split.
  - intros E. apply (f_equal ascii_of_nat) in E.
    rewrite ascii_nat_embedding in E. rewrite E in Hsp. done.
  - intros [H1 H2]. unfold is_upper in Hup. cbv zeta in Hup.
    apply Nat.leb_le in H1, H2. by rewrite H1, H2 in Hup.
Qed.

(** X14: for a name of ASCII characters the identifier has as many
    characters as the name, all of them ASCII, and none of them is a
    space (code 32) or a capital letter (codes 65 to 90). *)
Theorem competitor_id_shape name :
  is_ascii_text name = true →
  String.length (competitor_id name) = String.length name
  ∧ is_ascii_text (competitor_id name) = true
  ∧ ∀ i c, String.get i (competitor_id name) = Some c →
      nat_of_ascii c ≠ 32 ∧ ¬ (65 ≤ nat_of_ascii c ≤ 90).
Proof.
  intros Hascii. rewrite competitor_id_map. split; [apply map_chars_length|].
  split.
  - unfold is_ascii_text in *.
    by apply (all_chars_map_impl _ _ _ _ id_char_ascii).
  - intros i c. rewrite get_map_chars.
    destruct (String.get i name) as [c0|]; [|done].
    intros [= <-]. apply id_char_code.
Qed.

Lemma competitor_id_shape_witness :
  is_ascii_text "Acme Corp" = true
  ∧ String.length (competitor_id "Acme Corp") = 9
  ∧ is_ascii_text (competitor_id "Acme Corp") = true.
Proof.
  destruct (competitor_id_shape "Acme Corp" eq_refl) as (Hl & Ha & _).
  split; [reflexivity|]. split; [exact Hl|exact Ha].
Defined.

(** X15: the derivation does not tell apart names that differ only in
    the case of their letters or in spaces written as hyphens: for a
    name of ASCII characters, the identifier of the lowered name, of the
    name with hyphens for spaces, and of the identifier itself are all
    the identifier of the name. *)
Theorem competitor_id_collisions name :
  is_ascii_text name = true →
  competitor_id (lower name) = competitor_id name
  ∧ competitor_id (replace " " "-" name) = competitor_id name
  ∧ competitor_id (competitor_id name) = competitor_id name.
Proof.
  intros _.
  rewrite !competitor_id_map, lower_map, replace_space, !map_chars_compose.
  split; [apply map_chars_ext, id_char_of_lower|].
  split; [apply map_chars_ext, id_char_of_hyphen|].
  apply map_chars_ext, id_char_twice.
Qed.

Lemma competitor_id_collisions_witness :
  is_ascii_text "Acme Corp" = true
  ∧ competitor_id "acme corp" = competitor_id "Acme Corp"
  ∧ competitor_id "Acme-Corp" = competitor_id "Acme Corp"
  ∧ competitor_id "acme-corp" = competitor_id "Acme Corp".
Proof.
  destruct (competitor_id_collisions "Acme Corp" eq_refl) as (H1 & H2 & H3).
  split; [reflexivity|]. split; [exact H1|]. split; [exact H2|exact H3].
Defined.

(** ** Further properties of the frame *)

Section PagesKeep.
Context (R : world → world → Prop) `{!Reflexive R} `{!Transitive R}.
Context (R_show : ∀ e w, R w (show e w)).

Lemma keeps_read_sheet sheet_id name : keeps R (read_sheet sheet_id name).
Proof. apply keeps_unchanged; [done|]. intros w. apply read_sheet_unchanged. Qed.

Lemma keeps_page_library folder : keeps R (page_library folder).
Proof.
  unfold page_library.
  apply keeps_bind; [done..|by apply keeps_render|]. intros _.
  destruct folder as [|c s]; [by apply keeps_render|].
  apply keeps_bind; [done..| |].
  - apply keeps_unchanged; [done|]. apply list_children_unchanged.
  - intros items. apply keeps_bind; [done..| |].
    + destruct items; [by apply keeps_render|by apply keeps_ret].
    + intros _. apply keeps_for_each; [done..|].
      intros it. by apply keeps_render.
Qed.

Lemma keeps_page_automations : keeps R page_automations.
Proof.
  unfold page_automations.
  repeat (apply keeps_bind; [done..|by apply keeps_render|intros _]).
  by apply keeps_render.
Qed.

Lemma keeps_page_reports sheet_id : keeps R (page_reports sheet_id).
Proof.
  unfold page_reports.
  apply keeps_bind; [done..|by apply keeps_render|]. intros _.
  apply keeps_bind; [done..| |]. 
  { apply keeps_try_except; [done..| |by apply keeps_ret].
    apply keeps_bind; [done..|apply keeps_read_sheet|].
    intros rows. by apply keeps_ret. }
  intros fm. apply keeps_bind; [done..| |].
  { apply keeps_try_except; [done..| |by apply keeps_ret].
    apply keeps_bind; [done..|apply keeps_read_sheet|].
    intros rows. by apply keeps_ret. }
  intros news.
  repeat (apply keeps_bind; [done..|by apply keeps_render|intros _]).
  by apply keeps_render.
Qed.

End PagesKeep.

Lemma upsert_sheet_clients sheet_id name rows :
  keeps same_clients (upsert_sheet sheet_id name rows).
Proof.
  intros w. unfold upsert_sheet, bind, Gspread.open_by_key, Gspread.worksheet_.
  destruct (books w !! sheet_id) as [b|] eqn:Hb; cbn [fst snd]; [|done].
  rewrite Hb. cbn [mbind option_bind].
  destruct (Gspread.find_sheet b name) as [ws|] eqn:Hf; cbn [fst snd]; [|done].
  destruct rows as [|first rest]; [done|].
  rewrite (update_run _ _ _ _ _ _ Hb Hf).
  destruct (Gspread.json_ok _); [|done].
  by destruct (Gspread.in_grid _ _ _ _).
Qed.

Lemma add_worksheet_clients sheet_id name rows cols :
  keeps same_clients (Gspread.add_worksheet sheet_id name rows cols).
Proof.
  intros w. unfold Gspread.add_worksheet.
  destruct (books w !! sheet_id) as [b|]; [|done].
  by destruct (decide (name ∈ title <$> b)).
Qed.

Lemma ensure_sheets_clients sheet_id : keeps same_clients (ensure_sheets sheet_id).
Proof.
  unfold ensure_sheets. apply keeps_bind; [apply _..| |].
  - apply keeps_unchanged; [apply _|]. intros w. unfold Gspread.worksheets.
    by destruct (books w !! sheet_id).
  - intros wss. apply keeps_for_each; [apply _..|]. intros n.
    destruct (decide (n ∈ title <$> wss)); [by apply keeps_ret|].
    apply add_worksheet_clients.
Qed.

Lemma page_competitors_clients f sheet_id :
  keeps same_clients (page_competitors f sheet_id).
Proof.
  unfold page_competitors.
  apply keeps_bind; [apply _..|by apply keeps_render|]. intros _.
  apply keeps_bind; [apply _..| |].
  { apply keeps_unchanged; [apply _|]. intros w. unfold Gspread.open_by_key.
    by destruct (books w !! sheet_id). }
  intros sh. apply keeps_bind; [apply _..|apply ensure_sheets_clients|]. intros _.
  apply keeps_bind; [apply _..|apply (keeps_read_sheet same_clients)|]. intros rows.
  cbv zeta.
  repeat (apply keeps_bind; [apply _..|by apply keeps_render|intros _]).
  destruct (submitted f); [|by apply keeps_ret].
  apply keeps_bind; [apply _..|apply upsert_sheet_clients|]. intros _.
  by apply keeps_render.
Qed.

(** X16: only the Competitors page writes.  For every other navigation
    choice a run of [main] leaves the store as it was, whatever its
    outcome: the spreadsheets, the log of requests and the Drive are the
    same after the run as before. *)
Theorem main_writes_only_on_competitors ss w :
  navigate ss ≠ "Competitors" →
  same_store w (main ss w).2.
Proof.
  intros Hnav. revert w. change (keeps same_store (main ss)). unfold main.
  repeat (apply keeps_bind; [apply _..|by apply keeps_render|intros _]).
  cbv zeta.
  repeat (apply keeps_bind; [apply _..|by apply keeps_render|intros _]).
  apply keeps_bind; [apply _..|apply get_gspread_client_store|]. intros gc.
  apply keeps_bind; [apply _..|apply get_drive_service_store|]. intros ds.
  apply keeps_bind; [apply _..| |].
  - rewrite decide_False by done.
    destruct (decide (navigate ss = "Library")); [apply (keeps_page_library same_store same_store_show)|].
    destruct (decide (navigate ss = "Automations"));
      [apply (keeps_page_automations same_store same_store_show)
      |apply (keeps_page_reports same_store same_store_show)].
  - intros _.
    repeat (apply keeps_bind; [apply _..|by apply keeps_render|intros _]).
    by apply keeps_render.
Qed.

Lemma main_writes_only_on_competitors_witness :
  navigate (with_credential "Reports") ≠ "Competitors"
  ∧ books (main (with_credential "Reports") news_only).2 = books news_only
  ∧ writes (main (with_credential "Reports") news_only).2 = [].
Proof.
  assert (navigate (with_credential "Reports") ≠ "Competitors") as Hnav by done.
  destruct (main_writes_only_on_competitors (with_credential "Reports") news_only
              Hnav) as (Hb & Hw & _).
  split; [exact Hnav|]. split; [exact Hb|exact Hw].
Defined.

Lemma get_gspread_client_hit ss w gc :
  gspread_client w = Some gc → get_gspread_client ss w = (Return gc, w).
Proof. intros H. unfold get_gspread_client. by rewrite H. Qed.

Lemma get_drive_service_hit ss w ds :
  drive_service w = Some ds → get_drive_service ss w = (Return ds, w).
Proof. intros H. unfold get_drive_service. by rewrite H. Qed.

(** X17: once both clients are cached, a run of [main] does not look at
    the credential payload: with the same other settings and inputs the
    run is the same whatever the payload is, present or absent, valid or
    not.  In particular such a run is not stopped by a missing
    credential. *)
Theorem main_ignores_credential_when_cached
    tz payload payload' sheet folder now page f ok ok' w gc ds :
  gspread_client w = Some gc →
  drive_service w = Some ds →
  main (session_of tz payload sheet folder now page f ok) w
  = main (session_of tz payload' sheet folder now page f ok') w.
Proof.
  intros Hgc Hds. unfold main, session_of.
  cbn [st_secrets general_timezone google_sheet_id google_drive_top_folder_id
       local_time navigate comp_form_state].
  rewrite !bind_render.
  match goal with
  | |- ?L = ?R => assert (∃ T, L = T ∧ R = T) as (T & -> & ->); [|done]
  end.
  eexists. split.
  - erewrite bind_return; [|by apply (get_gspread_client_hit _ _ gc)].
    erewrite bind_return; [|by apply (get_drive_service_hit _ _ ds)].
    reflexivity.
  - erewrite bind_return; [|by apply (get_gspread_client_hit _ _ gc)].
    erewrite bind_return; [|by apply (get_drive_service_hit _ _ ds)].
    reflexivity.
Qed.

Lemma main_ignores_credential_when_cached_witness :
  gspread_client warm = Some "payload"
  ∧ drive_service warm = Some "payload"
  ∧ (main (session_of None None (Some "sheet-1") None "10:00" "Reports"
             acme_form (λ _, true)) warm).1 = Return tt.
Proof.
  split; [reflexivity|]. split; [reflexivity|].
  rewrite (main_ignores_credential_when_cached None None (Some "payload")
             (Some "sheet-1") None "10:00" "Reports" acme_form (λ _, true)
             (λ _, true) warm "payload" "payload" eq_refl eq_refl).
  by vm_compute.
Defined.

Lemma get_gspread_client_miss ss w c s :
  google_service_account_json (st_secrets ss) = Some (String c s) →
  service_account_info_ok ss (String c s) = true →
  gspread_client w = None →
  get_gspread_client ss w = (Return (String c s), cache_gspread (String c s) w).
Proof.
  intros Hp Hok Hgc. unfold get_gspread_client, bind, get_sa_creds.
  by rewrite Hgc, Hp, Hok.
Qed.

Lemma get_drive_service_miss ss w c s :
  google_service_account_json (st_secrets ss) = Some (String c s) →
  service_account_info_ok ss (String c s) = true →
  drive_service w = None →
  get_drive_service ss w = (Return (String c s), cache_drive (String c s) w).
Proof.
  intros Hp Hok Hds. unfold get_drive_service, bind, get_sa_creds.
  by rewrite Hds, Hp, Hok.
Qed.

(** X18: a run that starts without cached clients and finds a credential
    payload that parses leaves both clients cached, built from that
    payload, whatever page is shown and whether the page returns or
    raises. *)
Theorem main_caches_clients ss w payload :
  google_service_account_json (st_secrets ss) = Some payload →
  payload ≠ "" →
  service_account_info_ok ss payload = true →
  gspread_client w = None →
  drive_service w = None →
  gspread_client (main ss w).2 = Some payload
  ∧ drive_service (main ss w).2 = Some payload.
Proof.
  intros Hp Hne Hok Hgc Hds. destruct payload as [|c s]; [done|].
  unfold main. rewrite !bind_render. cbv zeta. rewrite ?bind_render.
  erewrite bind_return; [|by apply get_gspread_client_miss].
  erewrite bind_return; [|by apply get_drive_service_miss].
  match goal with
  | |- context [bind ?c ?k ?w0] =>
      assert (keeps same_clients (bind c k)) as Hk
  end.
  { apply keeps_bind; [apply _..| |].
    - destruct (decide (navigate ss = "Competitors"));
        [apply page_competitors_clients|].
      destruct (decide (navigate ss = "Library")); [apply (keeps_page_library same_clients same_clients_show)|].
      destruct (decide (navigate ss = "Automations"));
        [apply (keeps_page_automations same_clients same_clients_show)
        |apply (keeps_page_reports same_clients same_clients_show)].
    - intros _.
      repeat (apply keeps_bind; [apply _..|by apply keeps_render|intros _]).
      by apply keeps_render. }
  match goal with
  | |- context [bind ?c ?k ?w0] => destruct (Hk w0) as [H1 H2]
  end.
  by rewrite H1, H2.
Qed.

Lemma main_caches_clients_witness :
  google_service_account_json (st_secrets (with_credential "Competitors"))
  = Some "payload"
  ∧ gspread_client news_only = None
  ∧ gspread_client (main (with_credential "Competitors") news_only).2
    = Some "payload"
  ∧ drive_service (main (with_credential "Competitors") news_only).2
    = Some "payload".
Proof.
  split; [reflexivity|]. split; [reflexivity|].
  exact (main_caches_clients (with_credential "Competitors") news_only "payload"
           eq_refl ltac:(done) eq_refl eq_refl eq_refl).
Defined.

(** X20: an unset or unknown spreadsheet identifier is not guarded on the
    Competitors page.  With the clients available, a run of [main] on
    that page raises [SpreadsheetNotFound] after the four opening
    sidebar elements and the page header; the closing sidebar lines are
    not rendered and nothing is written. *)
Theorem main_competitors_unknown_spreadsheet ss w gc ds :
  gspread_client w = Some gc →
  drive_service w = Some ds →
  navigate ss = "Competitors" →
  books w !! default "" (google_sheet_id (st_secrets ss)) = None →
  main ss w
  = (Raise (SpreadsheetNotFound (default "" (google_sheet_id (st_secrets ss)))),
     shows [ sidebar_title "Competitor Intelligence";
             sidebar_caption ("Local time: " +:+ local_time ss);
             sidebar_write ("Timezone: "
                            +:+ default "Europe/Berlin"
                                  (general_timezone (st_secrets ss)));
             sidebar_radio "Navigate" pages;
             header "Competitors" ] w).
Proof.
  intros Hgc Hds Hnav Hb. unfold main. rewrite !bind_render. cbv zeta.
  rewrite ?bind_render.
  erewrite bind_return; [|by apply (get_gspread_client_hit _ _ gc)].
  erewrite bind_return; [|by apply (get_drive_service_hit _ _ ds)].
  rewrite decide_True by done. unfold bind at 1.
  rewrite page_competitors_raises by done.
  unfold show, shows. cbn [books drive writes screen gspread_client drive_service].
  by rewrite <- !app_assoc.
Qed.

Lemma main_competitors_unknown_spreadsheet_witness :
  gspread_client warm = Some "payload"
  ∧ navigate (session_of None None None None "10:00" "Competitors" acme_form
                (λ _, true)) = "Competitors"
  ∧ books warm !! "" = None
  ∧ (main (session_of None None None None "10:00" "Competitors" acme_form
             (λ _, true)) warm).1
    = Raise (SpreadsheetNotFound "").
Proof.
  split; [reflexivity|]. split; [reflexivity|]. split; [reflexivity|].
  by rewrite (main_competitors_unknown_spreadsheet
                (session_of None None None None "10:00" "Competitors" acme_form
                   (λ _, true)) warm "payload" "payload"
                eq_refl eq_refl eq_refl eq_refl).
Defined.
